(** * Mediquick: the fulfillment state machine and the coin ledger

    A shallow embedding of the transition handlers of [src/App.js]
    ([handleConfirmTransferAndPayment], [handleDonateCoins],
    [handleTakeOrderAppointment], [handleAcceptOffer], the two QR
    generators) over an explicit model of the document store, followed by
    the properties of the specification that concern them; then the
    handlers that create the records ([handleBuyNow],
    [handleRequestCheckup], [handlePurchaseProduct]), the role
    selection, the requests and their approvals, the listeners and lists
    of the dashboards, and the properties of the runs of all of them.

    Modelling conventions.
    - The document store is the external collaborator of the
      specification (get by id, create, field-merge update).  A collection
      is a finite map from document ids to typed records; a document id is
      an atomic key.  [updateDoc] validates its data before anything is
      sent: it is rejected with [invalid-argument] when a field is given
      as [undefined]; otherwise it merges the given fields into an
      existing document and is rejected with [not-found] when the
      document is absent.  No store call fails for a reason outside the
      model (network, permissions).
    - A string used as a document id is taken as one path segment.
      [doc] splits an id on the slash, and the store accepts as ids
      only some strings; the id of a document that exists is one of
      them, and the properties about an id under which no document
      need exist take such an id ([document_id]).
    - Numbers are integers.  The code computes on doubles, which agree
      with the integers up to [2^53]; the properties that add amounts
      take the sums within that range ([safe]).
    - The dashboards are components declared in the body of [App]: when
      [App] renders again they are mounted anew and their local state
      (the QR input, the donation form, the QR modal) is back to its
      initial value.  [displayMessage] sets state of [App] and so has
      this effect; a setter of a dashboard called after it belongs to the
      unmounted dashboard and changes nothing ([afterMessage]).
    - Documents are typed records following the data model of the
      specification; a field that may be absent is an [option].
    - A handler runs from its first line to its last without interleaving
      with another handler: every [await] completes before anything else
      touches the store.  [racingClaims] and [racingDonations] are the
      two schedules modelled in which two handlers overlap.
    - The timer that clears the message three seconds after
      [displayMessage] is not modelled.
    - [serverTimestamp()] is kept as the sentinel the code passes.
    - [JSON.parse] and [JSON.stringify] belong to the JavaScript runtime
      and are parameters of the development. *)

From Stdlib Require Import ZArith QArith_base String Ascii List.
From stdpp Require Import base option list gmap strings.

Local Open Scope string_scope.
Local Open Scope Z_scope.

(** ** JavaScript values *)

(** What [JSON.parse] can return, plus [undefined] for an absent
    property.  Numbers are integers: the handlers only test a parsed
    number for truthiness and compare it with strings. *)
#[local] Unset Elimination Schemes.
Inductive JSValue : Type :=
  | JUndefined
  | JNull
  | JBool (b : bool)
  | JNum (n : Z)
  | JStr (s : string)
  | JArr (items : list JSValue)
  | JObj (props : list (string * JSValue)).
#[local] Set Elimination Schemes.

(** [if (v)]: the falsy values are [undefined], [null], [false], [0]
    and the empty string. *)
Definition truthy (v : JSValue) : bool :=
  match v with
  | JUndefined | JNull => false
  | JBool b => b
  | JNum n => negb (n =? 0)
  | JStr s => negb (bool_decide (s = ""))
  | JArr _ | JObj _ => true
  end.

(** [!s] on a string. *)
Definition str_truthy (s : string) : bool := negb (bool_decide (s = "")).

(** Exceptions that reach the [catch] blocks of the handlers. *)
Inductive Exn : Type :=
  | SyntaxError                      (* JSON.parse on malformed text *)
  | TypeError                        (* destructuring null, a path segment that is no string *)
  | FirestoreError (code : string).  (* rejected store call *)

Fixpoint own_property (k : string) (l : list (string * JSValue)) : JSValue :=
  match l with
  | [] => JUndefined
  | (k', v) :: l' => if bool_decide (k = k') then v else own_property k l'
  end.

(** [const { k } = v]: reading property [k] while destructuring [v].
    Destructuring [null] or [undefined] throws; a primitive or an array has
    no such named property. *)
Definition get_prop (v : JSValue) (k : string) : Exn + JSValue :=
  match v with
  | JUndefined | JNull => inl TypeError
  | JObj props => inr (own_property k props)
  | _ => inr JUndefined
  end.

(** [a === b] between an optional string field of a document and a
    value taken from the token. *)
Definition strict_eq_field (field : option string) (v : JSValue) : bool :=
  match field, v with
  | None, JUndefined => true
  | Some s, JStr s' => bool_decide (s = s')
  | _, _ => false
  end.

(** ** Documents *)

Inductive Timestamp : Type := ServerTimestamp.

Inductive OrderStatus : Type :=
  | pending_salesperson_pickup
  | in_delivery
  | delivered
  | purchased_by_doctor.

Inductive AppointmentStatus : Type :=
  | pending
  | accepted
  | assigned_to_salesperson
  | completed.

#[global] Instance OrderStatus_eq_dec : EqDecision OrderStatus.
Proof. solve_decision. Defined.
#[global] Instance AppointmentStatus_eq_dec : EqDecision AppointmentStatus.
Proof. solve_decision. Defined.

Module Product.
Record t : Type := mk {
  id : string;
  name : string;
  price : Q;
  serialNumber : string;
  coinsAssigned : Z;
}.
End Product.

Module Order.
(** [id] and [orderId] are never written by the application; they are
    read by the [allOrders] query and by [handleGenerateCustomerQr]. *)
Record t : Type := mk {
  id : option string;
  orderId : option string;
  productId : string;
  productName : string;
  price : Q;
  customerId : string;
  status : OrderStatus;
  orderDate : Timestamp;
  salespersonId : option string;
  pickupTime : option Timestamp;
  deliveredDate : option Timestamp;
  cashReceived : option bool;
  paymentConfirmed : option bool;
  qrContent : option string;
}.
End Order.

Module Appointment.
Record t : Type := mk {
  patientId : string;
  patientName : string;
  doctorId : string;
  doctorName : string;
  reason : string;
  offeredOn : Timestamp;
  status : AppointmentStatus;
  acceptedOn : option Timestamp;
  salespersonId : option string;
  pickupTime : option Timestamp;
  deliveredDate : option Timestamp;
  cashReceived : option bool;
  paymentConfirmed : option bool;
  qrContent : option string;
}.
End Appointment.

Module Profile.
Record t : Type := mk {
  role : string;
  name : string;
  coins : option Z;
  approved : option bool;
}.

Definition set_coins (c : Z) (p : t) : t :=
  mk (role p) (name p) (Some c) (approved p).

(** The balance as the application displays it: [data().coins || 0]. *)
Definition balance (p : t) : Z :=
  match coins p with
  | Some c => c
  | None => 0
  end.
End Profile.

Inductive TransactionType : Type := coin_transfer | checkup_payment | donation.

Module Transaction.
Record t : Type := mk {
  type : TransactionType;
  amount : Z;
  sourceId : string;
  targetId : string;
  orderId : option string;
  patientOfferId : option string;
  date : Timestamp;
  description : string;
}.
End Transaction.

(** ** The document store *)

Record Firestore : Type := mkFirestore {
  (* artifacts/{appId}/users/{uid}/orders/{orderId} *)
  userOrders : gmap (string * string) Order.t;
  (* artifacts/{appId}/public/data/allOrders/{docId} *)
  allOrders : gmap string Order.t;
  (* artifacts/{appId}/public/data/patientOffers/{offerId} *)
  patientOffers : gmap string Appointment.t;
  (* artifacts/{appId}/users/{uid}/profile/{uid} *)
  profiles : gmap string Profile.t;
  (* artifacts/{appId}/users/{uid}/transactions, in order of arrival *)
  transactions : gmap string (list Transaction.t);
}.

(** ** Client state

    The React state the handlers read and write.  [dbRef] tells whether
    [dbRef.current] holds the store handle. *)

Module Institution.
Record t : Type := mk {
  id : string;
  name : string;
}.
End Institution.

(** The local variable [type] of the two QR handlers. *)
Inductive RecordType : Type := order | appointment.

Module MessageType.
Inductive t : Type := error | success.
End MessageType.

(** One constructor per [displayMessage] call of the modelled handlers. *)
Inductive Message : Type :=
  | EnterQrContent                 (* Please enter QR code content. *)
  | InvalidQrContent               (* Invalid QR code content. *)
  | OrderNotAccessible             (* Order not found or not accessible. *)
  | RecordNotFound                 (* Order/Appointment not found. *)
  | OrderNotForAccount             (* This order is not for your account. *)
  | AppointmentNotForAccount       (* This appointment is not for your account. *)
  | OrderNotInDelivery             (* Order is not in 'in delivery' status. *)
  | AppointmentNotAssigned         (* Appointment is not in 'assigned to salesperson' status. *)
  | QrSalespersonMismatch          (* QR code does not match the assigned salesperson. *)
  | ConfirmedAndPaid (type : RecordType)  (* Delivery|Checkup confirmed and payment processed! *)
  | FailedToConfirm (e : Exn)      (* Failed to confirm: ... *)
  | SelectInstitutionAndAmount     (* Please select an institution and enter a valid amount. *)
  | AmountNotPositive              (* Amount to donate must be a positive number. *)
  | Donated (amount : Z) (institution : option string)  (* Successfully donated ... coins to ...! *)
  | FailedToDonate (e : Exn)       (* Failed to donate coins: ... *)
  | OrderNotPendingPickup          (* Order is not pending salesperson pickup. *)
  | AppointmentNotAccepted         (* Appointment is not in 'accepted' status. *)
  | AlreadyAssignedToSalesperson   (* This has already been assigned to a salesperson. *)
  | AssignedToYou (type : RecordType)     (* Order|Appointment assigned to you! *)
  | FailedToTake (e : Exn)         (* Failed to take order/appointment: ... *)
  | OfferAccepted                  (* Offer accepted! *)
  | FailedToAccept (e : Exn).      (* Failed to accept offer: ... *)

Record Client : Type := mkClient {
  dbRef : bool;
  userId : string;
  products : list Product.t;
  approvedInstitutions : list Institution.t;
  qrCodeInput : string;
  amountToDonate : string;
  selectedInstitutionForDonation : string;
  currentQrContent : string;
  showQrModal : bool;
  message : option Message;
  messageType : option MessageType.t;
}.

(** [setMessage(msg); setMessageType(type)]: state of [App].  [App]
    renders again and the dashboard is mounted anew, with [''] and
    [false] for its local state. *)
Definition setMessage (m : Message) (ty : MessageType.t) (c : Client) : Client :=
  mkClient (dbRef c) (userId c) (products c) (approvedInstitutions c)
    "" "" "" "" false (Some m) (Some ty).

Definition setQrCodeInput (s : string) (c : Client) : Client :=
  mkClient (dbRef c) (userId c) (products c) (approvedInstitutions c)
    s (amountToDonate c) (selectedInstitutionForDonation c)
    (currentQrContent c) (showQrModal c) (message c) (messageType c).

Definition setAmountToDonate (s : string) (c : Client) : Client :=
  mkClient (dbRef c) (userId c) (products c) (approvedInstitutions c)
    (qrCodeInput c) s (selectedInstitutionForDonation c)
    (currentQrContent c) (showQrModal c) (message c) (messageType c).

Definition setSelectedInstitutionForDonation (s : string) (c : Client) : Client :=
  mkClient (dbRef c) (userId c) (products c) (approvedInstitutions c)
    (qrCodeInput c) (amountToDonate c) s
    (currentQrContent c) (showQrModal c) (message c) (messageType c).

Definition setCurrentQrContent (s : string) (c : Client) : Client :=
  mkClient (dbRef c) (userId c) (products c) (approvedInstitutions c)
    (qrCodeInput c) (amountToDonate c) (selectedInstitutionForDonation c)
    s (showQrModal c) (message c) (messageType c).

Definition setShowQrModal (b : bool) (c : Client) : Client :=
  mkClient (dbRef c) (userId c) (products c) (approvedInstitutions c)
    (qrCodeInput c) (amountToDonate c) (selectedInstitutionForDonation c)
    (currentQrContent c) b (message c) (messageType c).

(** ** The error taxonomy of the specification

    The handlers report a failure by the message they display; the
    specification names failures by kind.  [error_kind] files each error
    message under the kind the specification gives to its condition. *)

Inductive ErrorKind : Type :=
  | NotFound
  | Unauthorized
  | InvalidState
  | AlreadyAssigned
  | MalformedToken
  | ValidationError.

Definition exn_kind (e : Exn) : option ErrorKind :=
  match e with
  | SyntaxError | TypeError => Some MalformedToken
  | FirestoreError code =>
      if bool_decide (code = "not-found") then Some NotFound else None
  end.

Definition error_kind (m : Message) : option ErrorKind :=
  match m with
  | EnterQrContent | InvalidQrContent => Some MalformedToken
  | OrderNotAccessible | RecordNotFound => Some NotFound
  | OrderNotForAccount | AppointmentNotForAccount => Some Unauthorized
  | QrSalespersonMismatch => Some Unauthorized
  | OrderNotInDelivery | AppointmentNotAssigned => Some InvalidState
  | OrderNotPendingPickup | AppointmentNotAccepted => Some InvalidState
  | AlreadyAssignedToSalesperson => Some AlreadyAssigned
  | SelectInstitutionAndAmount | AmountNotPositive => Some ValidationError
  | FailedToConfirm e | FailedToDonate e | FailedToTake e | FailedToAccept e =>
      exn_kind e
  | ConfirmedAndPaid _ | Donated _ _ | AssignedToYou _ | OfferAccepted => None
  end.

(** ** The handler monad

    A handler threads the client state and the store, may leave early
    with [return], and may throw; what was written before a throw
    stays written. *)

Record Sys : Type := mkSys {
  client : Client;
  db : Firestore;
}.

Inductive Res (A : Type) : Type :=
  | Val (a : A)
  | Returned
  | Thrown (e : Exn).
Arguments Val {A} a.
Arguments Returned {A}.
Arguments Thrown {A} e.

Definition M (A : Type) : Type := Sys → Sys * Res A.

#[global] Instance M_ret : MRet M := λ A a s, (s, Val a).

#[global] Instance M_bind : MBind M := λ A B f m s,
  match m s with
  | (s', Val a) => f a s'
  | (s', Returned) => (s', Returned)
  | (s', Thrown e) => (s', Thrown e)
  end.

Definition return_ {A} : M A := λ s, (s, Returned).
Definition throw {A} (e : Exn) : M A := λ s, (s, Thrown e).

Definition lift {A} (r : Exn + A) : M A :=
  match r with
  | inl e => throw e
  | inr a => mret a
  end.

(** [try { body } catch (error) { handler }]. *)
Definition try_catch (body : M unit) (handler : Exn → M unit) : M unit := λ s,
  match body s with
  | (s', Thrown e) => handler e s'
  | r => r
  end.

Definition when (b : bool) (m : M unit) : M unit :=
  if b then m else mret ().

Definition get_client : M Client := λ s, (s, Val (client s)).
Definition get_db : M Firestore := λ s, (s, Val (db s)).
Definition modify_client (f : Client → Client) : M unit := λ s,
  (mkSys (f (client s)) (db s), Val ()).
Definition put_db (d : Firestore) : M unit := λ s,
  (mkSys (client s) d, Val ()).

Definition displayMessage (m : Message) (ty : MessageType.t) : M unit :=
  modify_client (setMessage m ty).

(** A setter of the dashboard's local state called after
    [displayMessage]: it belongs to the dashboard that has been
    unmounted, and the page does not change. *)
Definition afterMessage (f : Client → Client) : M unit := mret ().

(** Running a handler: the state it leaves behind. *)
Definition run (h : M unit) (s : Sys) : Sys := (h s).1.

(** ** Store operations *)

Definition set_userOrders (m : gmap (string * string) Order.t) (d : Firestore) : Firestore :=
  mkFirestore m (allOrders d) (patientOffers d) (profiles d) (transactions d).
Definition set_allOrders (m : gmap string Order.t) (d : Firestore) : Firestore :=
  mkFirestore (userOrders d) m (patientOffers d) (profiles d) (transactions d).
Definition set_patientOffers (m : gmap string Appointment.t) (d : Firestore) : Firestore :=
  mkFirestore (userOrders d) (allOrders d) m (profiles d) (transactions d).
Definition set_profiles (m : gmap string Profile.t) (d : Firestore) : Firestore :=
  mkFirestore (userOrders d) (allOrders d) (patientOffers d) m (transactions d).
Definition set_transactions (m : gmap string (list Transaction.t)) (d : Firestore) : Firestore :=
  mkFirestore (userOrders d) (allOrders d) (patientOffers d) (profiles d) m.

Inductive DocRef : Type :=
  | UserOrderRef (uid orderId : string)
  | AllOrdersRef (docId : string)
  | PatientOfferRef (offerId : string).

Inductive DocData : Type :=
  | OrderData (o : Order.t)
  | AppointmentData (a : Appointment.t).

(** A value used as the last segment of a document path: [doc] throws on
    anything but a non-empty string. *)
Definition path_segment (v : JSValue) : Exn + string :=
  match v with
  | JStr s =>
      if bool_decide (s = "") then inl (FirestoreError "invalid-argument")
      else inr s
  | _ => inl TypeError
  end.

(** A string without a slash: [doc] takes it as one path segment. *)
Definition slashless (s : string) : bool :=
  forallb (λ a, negb (Ascii.eqb a "/")) (list_ascii_of_string s).

(** A string the store takes as the id of a document: one path segment,
    not [.] or [..], not of the form [__.*__], of at most 1500 bytes. *)
Definition reserved (s : string) : bool :=
  (4 <=? String.length s)%nat && String.prefix "__" s
  && String.prefix "__" (String.rev s).

Definition document_id (s : string) : bool :=
  slashless s && negb (String.eqb s ".") && negb (String.eqb s "..")
  && negb (reserved s) && (String.length s <=? 1500)%nat.

(** The id a reference ends with. *)
Definition ref_id (r : DocRef) : string :=
  match r with
  | UserOrderRef _ k | AllOrdersRef k | PatientOfferRef k => k
  end.

(** The document a reference points to. *)
Definition lookupDoc (r : DocRef) (d : Firestore) : option DocData :=
  match r with
  | UserOrderRef uid oid => OrderData <$> userOrders d !! (uid, oid)
  | AllOrdersRef k => OrderData <$> allOrders d !! k
  | PatientOfferRef k => AppointmentData <$> patientOffers d !! k
  end.

(** The store after a field-merge update of the document at [r], if it
    exists: [fo] and [fa] merge the fields into an order and into an
    appointment. *)
Definition mergeDoc (r : DocRef)
    (fo : Order.t → Order.t) (fa : Appointment.t → Appointment.t)
    (d : Firestore) : option Firestore :=
  match r with
  | UserOrderRef uid oid =>
      (λ o, set_userOrders (<[(uid, oid) := fo o]> (userOrders d)) d)
        <$> userOrders d !! (uid, oid)
  | AllOrdersRef k =>
      (λ o, set_allOrders (<[k := fo o]> (allOrders d)) d) <$> allOrders d !! k
  | PatientOfferRef k =>
      (λ a, set_patientOffers (<[k := fa a]> (patientOffers d)) d)
        <$> patientOffers d !! k
  end.

(** [(await getDoc(ref))]: [None] when [exists()] is false. *)
Definition getDoc (r : DocRef) : M (option DocData) :=
  d ← get_db;
  mret (lookupDoc r d).

(** The value of a field in the data of an update. *)
Inductive FieldValue : Type :=
  | FieldOf (v : JSValue)
  | FieldServerTimestamp.

(** The validation of the data of [updateDoc]: a field whose value is
    [undefined] is not supported. *)
Definition supported (fields : list (string * FieldValue)) : bool :=
  forallb (λ kv, match kv.2 with
                 | FieldOf JUndefined => false
                 | _ => true
                 end) fields.

(** [await updateDoc(ref, fields)]: [fields] is the data as the handler
    writes it, [fo] and [fa] what it merges into an order and into an
    appointment.  The data is validated when [updateDoc] is called,
    before the document is looked for. *)
Definition updateDoc (r : DocRef) (fields : list (string * FieldValue))
    (fo : Order.t → Order.t) (fa : Appointment.t → Appointment.t) : M unit :=
  if supported fields then
    d ← get_db;
    match mergeDoc r fo fa d with
    | Some d' => put_db d'
    | None => throw (FirestoreError "not-found")
    end
  else throw (FirestoreError "invalid-argument").

(** [await updateDoc(profileRef, { coins })]. *)
Definition updateProfileCoins (uid : string) (c : Z) : M unit :=
  d ← get_db;
  match profiles d !! uid with
  | Some p => put_db (set_profiles (<[uid := Profile.set_coins c p]> (profiles d)) d)
  | None => throw (FirestoreError "not-found")
  end.

(** [await addDoc(collection(db, users/{uid}/transactions), tx)]. *)
Definition addTransaction (uid : string) (tx : Transaction.t) : M unit :=
  d ← get_db;
  put_db (set_transactions
            (<[uid := (default [] (transactions d !! uid) ++ [tx])%list]> (transactions d)) d).

(** [where('id', '==', v)] on one document. *)
Definition id_field_is (v : JSValue) (o : Order.t) : bool :=
  match Order.id o, v with
  | Some s, JStr s' => bool_decide (s = s')
  | _, _ => false
  end.

(** [getDocs(query(allOrders, where('id', '==', v)))]: the matching
    documents, in the order the store lists the collection. *)
Definition matchingOrders (v : JSValue) (d : Firestore) : list (string * Order.t) :=
  filter (λ kd, id_field_is v kd.2 = true) (map_to_list (allOrders d)).

Definition queryAllOrdersById (v : JSValue) : M (list (string * Order.t)) :=
  d ← get_db;
  mret (matchingOrders v d).

(** The data of the update of a confirmation: [status],
    [deliveredDate], [cashReceived] and [paymentConfirmed] (one of them
    [true], the other [undefined]), [qrContent]. *)
Definition confirmationFields (ofOrder : bool) (qr : string)
    : list (string * FieldValue) :=
  [("status", FieldOf (JStr (if ofOrder then "delivered" else "completed")));
   ("deliveredDate", FieldServerTimestamp);
   ("cashReceived", FieldOf (if ofOrder then JBool true else JUndefined));
   ("paymentConfirmed", FieldOf (if ofOrder then JUndefined else JBool true));
   ("qrContent", FieldOf (JStr qr))].

(** What these fields merge into a record. *)
Definition confirmOrder (qr : string) (o : Order.t) : Order.t :=
  Order.mk (Order.id o) (Order.orderId o) (Order.productId o)
    (Order.productName o) (Order.price o) (Order.customerId o)
    delivered (Order.orderDate o) (Order.salespersonId o)
    (Order.pickupTime o) (Some ServerTimestamp) (Some true)
    None (Some qr).

Definition confirmAppointment (qr : string) (a : Appointment.t) : Appointment.t :=
  Appointment.mk (Appointment.patientId a) (Appointment.patientName a)
    (Appointment.doctorId a) (Appointment.doctorName a)
    (Appointment.reason a) (Appointment.offeredOn a)
    completed (Appointment.acceptedOn a) (Appointment.salespersonId a)
    (Appointment.pickupTime a) (Some ServerTimestamp)
    None (Some true) (Some qr).

(** The data of the update of a claim: [salespersonId], [status],
    [pickupTime]. *)
Definition claimFields (ofOrder : bool) (uid : string)
    : list (string * FieldValue) :=
  [("salespersonId", FieldOf (JStr uid));
   ("status", FieldOf (JStr (if ofOrder then "in_delivery"
                             else "assigned_to_salesperson")));
   ("pickupTime", FieldServerTimestamp)].

(** What these fields merge into a record. *)
Definition assignOrder (uid : string) (o : Order.t) : Order.t :=
  Order.mk (Order.id o) (Order.orderId o) (Order.productId o)
    (Order.productName o) (Order.price o) (Order.customerId o)
    in_delivery (Order.orderDate o) (Some uid)
    (Some ServerTimestamp) (Order.deliveredDate o) (Order.cashReceived o)
    (Order.paymentConfirmed o) (Order.qrContent o).

Definition assignAppointment (uid : string) (a : Appointment.t) : Appointment.t :=
  Appointment.mk (Appointment.patientId a) (Appointment.patientName a)
    (Appointment.doctorId a) (Appointment.doctorName a)
    (Appointment.reason a) (Appointment.offeredOn a)
    assigned_to_salesperson (Appointment.acceptedOn a) (Some uid)
    (Some ServerTimestamp) (Appointment.deliveredDate a)
    (Appointment.cashReceived a) (Appointment.paymentConfirmed a)
    (Appointment.qrContent a).

(** The data of the update of an acceptance: [status], [acceptedOn]. *)
Definition acceptFields : list (string * FieldValue) :=
  [("status", FieldOf (JStr "accepted")); ("acceptedOn", FieldServerTimestamp)].

(** What these fields merge into an appointment. *)
Definition acceptAppointment (a : Appointment.t) : Appointment.t :=
  Appointment.mk (Appointment.patientId a) (Appointment.patientName a)
    (Appointment.doctorId a) (Appointment.doctorName a)
    (Appointment.reason a) (Appointment.offeredOn a)
    accepted (Some ServerTimestamp) (Appointment.salespersonId a)
    (Appointment.pickupTime a) (Appointment.deliveredDate a)
    (Appointment.cashReceived a) (Appointment.paymentConfirmed a)
    (Appointment.qrContent a).

(** [coins + delta || delta], where [coins] is [undefined] or a number:
    [undefined + delta] is [NaN], and [NaN] and [0] are falsy.  The sum
    is that of the integers, which is the sum of the doubles while the
    numbers are [safe], defined below. *)
Definition addCoins (coins : option Z) (delta : Z) : Z :=
  match coins with
  | None => delta
  | Some c => if bool_decide (c + delta = 0) then delta else c + delta
  end.

(** The integers that are doubles and on which the sum of the doubles is
    the sum of the integers when it is among them. *)
Definition safe (n : Z) : Prop := - 2 ^ 53 ≤ n ≤ 2 ^ 53.

(** The read-modify-write of a balance:
    [updateDoc(ref, { coins: (await getDoc(ref)).data()?.coins + delta || delta })]. *)
Definition creditCoins (uid : string) (delta : Z) : M unit :=
  d ← get_db;
  updateProfileCoins uid (addCoins (profiles d !! uid ≫= Profile.coins) delta).

(** ** [parseInt]

    With no radix: leading white space is skipped, a sign is read, a
    [0x] prefix selects base 16, and the longest prefix of digits is
    converted; no digit at all gives [NaN], here [None].  Exact for
    results below 2^53; white space is the ASCII white space. *)

Definition is_white_space (a : ascii) : bool :=
  let n := nat_of_ascii a in
  bool_decide (n = 9 ∨ n = 10 ∨ n = 11 ∨ n = 12 ∨ n = 13 ∨ n = 32)%nat.

Fixpoint skip_white_space (s : string) : string :=
  match s with
  | String a r => if is_white_space a then skip_white_space r else s
  | EmptyString => s
  end.

Definition digit_value (a : ascii) : option Z :=
  let n := Z.of_nat (nat_of_ascii a) in
  if bool_decide (48 ≤ n ≤ 57) then Some (n - 48)
  else if bool_decide (97 ≤ n ≤ 122) then Some (n - 87)
  else if bool_decide (65 ≤ n ≤ 90) then Some (n - 55)
  else None.

Fixpoint parse_digits (radix : Z) (s : string) (acc : option Z) : option Z :=
  match s with
  | String a r =>
      match digit_value a with
      | Some v =>
          if bool_decide (v < radix)
          then parse_digits radix r (Some (default 0 acc * radix + v))
          else acc
      | None => acc
      end
  | EmptyString => acc
  end.

Definition parseInt (input : string) : option Z :=
  let s := skip_white_space input in
  let '(sign, s) :=
    match s with
    | String "-" r => (-1, r)
    | String "+" r => (1, r)
    | _ => (1, s)
    end in
  let '(radix, s) :=
    match s with
    | String "0" (String "x" r) => (16, r)
    | String "0" (String "X" r) => (16, r)
    | _ => (10, s)
    end in
  (λ n, sign * n) <$> parse_digits radix s None.

(** ** Reading a field of [data]

    [docSnap.data()] is an order or an appointment; a field the record
    does not have reads as [undefined]. *)

Definition customerId_is (uid : string) (data : DocData) : bool :=
  match data with
  | OrderData o => bool_decide (Order.customerId o = uid)
  | AppointmentData _ => false
  end.

Definition patientId_is (uid : string) (data : DocData) : bool :=
  match data with
  | OrderData _ => false
  | AppointmentData a => bool_decide (Appointment.patientId a = uid)
  end.

Definition order_status_is (st : OrderStatus) (data : DocData) : bool :=
  match data with
  | OrderData o => bool_decide (Order.status o = st)
  | AppointmentData _ => false
  end.

Definition appointment_status_is (st : AppointmentStatus) (data : DocData) : bool :=
  match data with
  | OrderData _ => false
  | AppointmentData a => bool_decide (Appointment.status a = st)
  end.

Definition data_salespersonId (data : DocData) : option string :=
  match data with
  | OrderData o => Order.salespersonId o
  | AppointmentData a => Appointment.salespersonId a
  end.

Definition data_productId (data : DocData) : option string :=
  match data with
  | OrderData o => Some (Order.productId o)
  | AppointmentData _ => None
  end.

Definition data_reason (data : DocData) : string :=
  match data with
  | OrderData _ => "undefined"
  | AppointmentData a => Appointment.reason a
  end.

Definition is_order (type : RecordType) : bool :=
  match type with order => true | appointment => false end.

Definition is_appointment (type : RecordType) : bool :=
  match type with order => false | appointment => true end.

(** [products.find(p => p.id === data.productId)]. *)
Definition findProduct (productId : option string) (products : list Product.t)
    : option Product.t :=
  find (λ p, bool_decide (Some (Product.id p) = productId)) products.

(** [approvedInstitutions.find(inst => inst.id === id)?.name]. *)
Definition institutionName (id : string) (l : list Institution.t) : option string :=
  Institution.name <$> find (λ inst, bool_decide (Institution.id inst = id)) l.

(** [if (field)] on an optional string field. *)
Definition field_truthy (f : option string) : bool :=
  match f with
  | Some s => str_truthy s
  | None => false
  end.

(** ** The handlers *)

Section Handlers.

(** [JSON.parse]: [None] when it throws a [SyntaxError]. *)
Variable JSON_parse : string → option JSValue.

(** [JSON.stringify]: [None] when it throws. *)
Variable JSON_stringify : JSValue → option string.

Definition parseQr (s : string) : M JSValue :=
  match JSON_parse s with
  | Some v => mret v
  | None => throw SyntaxError
  end.

Definition generateQRCodeContent (data : JSValue) : string :=
  match JSON_stringify data with
  | Some s => s
  | None => "Error"
  end.

(** The customer or patient confirms a delivery or a checkup. *)
Definition handleConfirmTransferAndPayment : M unit :=
  c ← get_client;
  when (negb (dbRef c) || negb (str_truthy (userId c))
        || negb (str_truthy (qrCodeInput c)))
    (displayMessage EnterQrContent MessageType.error;; return_);;
  try_catch
    (qrData ← parseQr (qrCodeInput c);
     orderId ← lift (get_prop qrData "orderId");
     patientOfferId ← lift (get_prop qrData "patientOfferId");
     salespersonId ← lift (get_prop qrData "salespersonId");
     '(type, docId) ←
       (if truthy orderId then
          oid ← lift (path_segment orderId); mret (order, oid)
        else if truthy patientOfferId then
          pid ← lift (path_segment patientOfferId); mret (appointment, pid)
        else
          displayMessage InvalidQrContent MessageType.error;; return_);
     let docRef :=
       match type with
       | order => UserOrderRef (userId c) docId
       | appointment => PatientOfferRef docId
       end in
     docSnap ← getDoc docRef;
     data ←
       match docSnap with
       | Some data => mret data
       | None => displayMessage RecordNotFound MessageType.error;; return_
       end;
     (* Validate if it's for this customer/patient *)
     when (is_order type && negb (customerId_is (userId c) data))
       (displayMessage OrderNotForAccount MessageType.error;; return_);;
     when (is_appointment type && negb (patientId_is (userId c) data))
       (displayMessage AppointmentNotForAccount MessageType.error;; return_);;
     (* Validate status and salesperson *)
     when (is_order type && negb (order_status_is in_delivery data))
       (displayMessage OrderNotInDelivery MessageType.error;; return_);;
     when (is_appointment type
           && negb (appointment_status_is assigned_to_salesperson data))
       (displayMessage AppointmentNotAssigned MessageType.error;; return_);;
     when (negb (strict_eq_field (data_salespersonId data) salespersonId))
       (displayMessage QrSalespersonMismatch MessageType.error;; return_);;
     (* Update status and record payment *)
     updateDoc docRef (confirmationFields (is_order type) (qrCodeInput c))
       (confirmOrder (qrCodeInput c)) (confirmAppointment (qrCodeInput c));;
     (* Coin transfer to salesperson (for products) or record payment (for checkups) *)
     match type with
     | order =>
         match findProduct (data_productId data) (products c) with
         | Some product =>
             when (bool_decide (0 < Product.coinsAssigned product))
               (sid ← lift (path_segment salespersonId);
                creditCoins sid (Product.coinsAssigned product);;
                addTransaction sid
                  (Transaction.mk coin_transfer (Product.coinsAssigned product)
                     (userId c) sid (Some docId) None ServerTimestamp
                     ("Coins for product delivery: " ++ Product.name product)))
         | None => mret ()
         end
     | appointment =>
         let checkupCoins := 50 in
         sid ← lift (path_segment salespersonId);
         creditCoins sid checkupCoins;;
         addTransaction sid
           (Transaction.mk checkup_payment checkupCoins
              (userId c) sid None (Some docId) ServerTimestamp
              ("Coins for patient checkup: " ++ data_reason data))
     end;;
     displayMessage (ConfirmedAndPaid type) MessageType.success;;
     afterMessage (setQrCodeInput ""))
    (λ e, displayMessage (FailedToConfirm e) MessageType.error).

(** A customer donates coins to an institution. *)
Definition handleDonateCoins : M unit :=
  c ← get_client;
  when (negb (dbRef c) || negb (str_truthy (userId c))
        || negb (str_truthy (selectedInstitutionForDonation c))
        || negb (str_truthy (amountToDonate c)))
    (displayMessage SelectInstitutionAndAmount MessageType.error;; return_);;
  amount ←
    match parseInt (amountToDonate c) with
    | Some amount =>
        if bool_decide (amount ≤ 0)
        then displayMessage AmountNotPositive MessageType.error;; return_
        else mret amount
    | None => displayMessage AmountNotPositive MessageType.error;; return_
    end;
  try_catch
    ((* Add coins to institution *)
     institution ← lift (path_segment (JStr (selectedInstitutionForDonation c)));
     creditCoins institution amount;;
     (* Record transaction for institution *)
     addTransaction institution
       (Transaction.mk donation amount (userId c) institution
          None None ServerTimestamp
          ("Donation from customer " ++ userId c));;
     displayMessage
       (Donated amount (institutionName institution (approvedInstitutions c)))
       MessageType.success;;
     afterMessage (setAmountToDonate "");;
     afterMessage (setSelectedInstitutionForDonation ""))
    (λ e, displayMessage (FailedToDonate e) MessageType.error).

(** Two donations in flight at once.  [donationRead] is the handler up
    to the [getDoc] inside the data of its [updateDoc]: it reads the
    balance and writes nothing.  [donationWrite] is the rest, from the
    [updateDoc] on.  In [racingDonations] both handlers have read the
    balance before the [updateDoc] of either reaches the store; the two
    writes then land in turn. *)
Definition donationRead (c : Client) : M (string * Z * option Z) :=
  when (negb (dbRef c) || negb (str_truthy (userId c))
        || negb (str_truthy (selectedInstitutionForDonation c))
        || negb (str_truthy (amountToDonate c)))
    (displayMessage SelectInstitutionAndAmount MessageType.error;; return_);;
  amount ←
    match parseInt (amountToDonate c) with
    | Some amount =>
        if bool_decide (amount ≤ 0)
        then displayMessage AmountNotPositive MessageType.error;; return_
        else mret amount
    | None => displayMessage AmountNotPositive MessageType.error;; return_
    end;
  institution ← lift (path_segment (JStr (selectedInstitutionForDonation c)));
  d ← get_db;
  mret (institution, amount, profiles d !! institution ≫= Profile.coins).

Definition donationWrite (c : Client) (read : string * Z * option Z) : M unit :=
  let '(institution, amount, coins) := read in
  updateProfileCoins institution (addCoins coins amount);;
  addTransaction institution
    (Transaction.mk donation amount (userId c) institution
       None None ServerTimestamp
       ("Donation from customer " ++ userId c));;
  displayMessage
    (Donated amount (institutionName institution (approvedInstitutions c)))
    MessageType.success;;
  afterMessage (setAmountToDonate "");;
  afterMessage (setSelectedInstitutionForDonation "").

Definition finishDonation (c : Client) (r : Res (string * Z * option Z)) : M unit :=
  match r with
  | Val read =>
      try_catch (donationWrite c read)
        (λ e, displayMessage (FailedToDonate e) MessageType.error)
  | Returned => return_
  | Thrown e => displayMessage (FailedToDonate e) MessageType.error
  end.

Definition racingDonations (c1 c2 : Client) (d : Firestore)
    : Client * Client * Firestore :=
  let '(s1, r1) := donationRead c1 (mkSys c1 d) in
  let '(s2, r2) := donationRead c2 (mkSys c2 (db s1)) in
  let s1' := run (finishDonation c1 r1) (mkSys (client s1) (db s2)) in
  let s2' := run (finishDonation c2 r2) (mkSys (client s2) (db s1')) in
  (client s1', client s2', db s2').

(** A salesperson claims an order or an appointment.  [claimChecks] is
    the handler from [JSON.parse] to the last validation: it reads the
    store and writes nothing.  [claimWrite] is the rest, from the
    [updateDoc] on. *)
Definition claimChecks (c : Client) : M (RecordType * DocRef) :=
  qrData ← parseQr (qrCodeInput c);
  orderId ← lift (get_prop qrData "orderId");
  patientOfferId ← lift (get_prop qrData "patientOfferId");
  '(type, docRef) ←
    (if truthy orderId then
       orderSnapshot ← queryAllOrdersById orderId;
       match orderSnapshot with
       | (k, _) :: _ => mret (order, AllOrdersRef k)
       | [] => displayMessage OrderNotAccessible MessageType.error;; return_
       end
     else if truthy patientOfferId then
       pid ← lift (path_segment patientOfferId);
       mret (appointment, PatientOfferRef pid)
     else
       displayMessage InvalidQrContent MessageType.error;; return_);
  docSnap ← getDoc docRef;
  data ←
    match docSnap with
    | Some data => mret data
    | None => displayMessage RecordNotFound MessageType.error;; return_
    end;
  (* Validate status *)
  when (is_order type && negb (order_status_is pending_salesperson_pickup data))
    (displayMessage OrderNotPendingPickup MessageType.error;; return_);;
  when (is_appointment type && negb (appointment_status_is accepted data))
    (displayMessage AppointmentNotAccepted MessageType.error;; return_);;
  when (field_truthy (data_salespersonId data))
    (displayMessage AlreadyAssignedToSalesperson MessageType.error;; return_);;
  mret (type, docRef).

Definition claimWrite (c : Client) (target : RecordType * DocRef) : M unit :=
  updateDoc target.2 (claimFields (is_order target.1) (userId c))
    (assignOrder (userId c)) (assignAppointment (userId c));;
  displayMessage (AssignedToYou target.1) MessageType.success;;
  afterMessage (setQrCodeInput "").

Definition handleTakeOrderAppointment : M unit :=
  c ← get_client;
  when (negb (dbRef c) || negb (str_truthy (userId c))
        || negb (str_truthy (qrCodeInput c)))
    (displayMessage EnterQrContent MessageType.error;; return_);;
  try_catch
    (target ← claimChecks c; claimWrite c target)
    (λ e, displayMessage (FailedToTake e) MessageType.error).

(** Two claims in flight at once, by two signed-in clients that have
    entered a QR content: each [await] lets the other handler run, and
    here both handlers finish their checks before the [updateDoc] of
    either reaches the store; the two writes then land in turn. *)
Definition finishClaim (c : Client) (r : Res (RecordType * DocRef)) : M unit :=
  try_catch
    (match r with
     | Val target => claimWrite c target
     | Returned => return_
     | Thrown e => throw e
     end)
    (λ e, displayMessage (FailedToTake e) MessageType.error).

Definition racingClaims (c1 c2 : Client) (d : Firestore)
    : Client * Client * Firestore :=
  let '(s1, r1) := claimChecks c1 (mkSys c1 d) in
  let '(s2, r2) := claimChecks c2 (mkSys c2 (db s1)) in
  let s1' := run (finishClaim c1 r1) (mkSys (client s1) (db s2)) in
  let s2' := run (finishClaim c2 r2) (mkSys (client s2) (db s1')) in
  (client s1', client s2', db s2').

(** The salesperson shows a QR code for an assigned item. *)
Inductive Item : Type :=
  | OrderItem (docId : string) (o : Order.t)
  | OfferItem (docId : string) (a : Appointment.t).

(** [{ id: doc.id, ...doc.data() }]: a field [id] of the data wins. *)
Definition item_id (item : Item) : string :=
  match item with
  | OrderItem k o => default k (Order.id o)
  | OfferItem k _ => k
  end.

Definition item_orderId (item : Item) : option string :=
  match item with
  | OrderItem _ o => Order.orderId o
  | OfferItem _ _ => None
  end.

(** [item.orderId ? { orderId, salespersonId } : { patientOfferId, salespersonId }]. *)
Definition customerQrData (uid : string) (item : Item) : JSValue :=
  if field_truthy (item_orderId item)
  then JObj [("orderId", JStr (default "" (item_orderId item)));
             ("salespersonId", JStr uid)]
  else JObj [("patientOfferId", JStr (item_id item));
             ("salespersonId", JStr uid)].

(** [{ patientOfferId: offerId, doctorId: userId }]. *)
Definition salespersonQrData (uid offerId : string) : JSValue :=
  JObj [("patientOfferId", JStr offerId); ("doctorId", JStr uid)].

Definition handleGenerateCustomerQr (item : Item) : M unit :=
  c ← get_client;
  let qrData := customerQrData (userId c) item in
  modify_client (setCurrentQrContent (generateQRCodeContent qrData));;
  modify_client (setShowQrModal true).

(** The doctor accepts a checkup offer. *)
Definition handleAcceptOffer (offerId : string) : M unit :=
  c ← get_client;
  when (negb (dbRef c) || negb (str_truthy (userId c))) return_;;
  try_catch
    (docId ← lift (path_segment (JStr offerId));
     updateDoc (PatientOfferRef docId) acceptFields id acceptAppointment;;
     displayMessage OfferAccepted MessageType.success;;
     (* Immediately display QR for salesperson to scan *)
     let qrData := salespersonQrData (userId c) offerId in
     afterMessage (setCurrentQrContent (generateQRCodeContent qrData));;
     afterMessage (setShowQrModal true))
    (λ e, displayMessage (FailedToAccept e) MessageType.error).

(** The doctor shows the QR code of an accepted offer again. *)
Definition handleGenerateSalespersonQr (offerId : string) : M unit :=
  c ← get_client;
  let qrData := salespersonQrData (userId c) offerId in
  modify_client (setCurrentQrContent (generateQRCodeContent qrData));;
  modify_client (setShowQrModal true).

End Handlers.

(** * Vocabulary of the properties *)

Section Requests.

Variable JSON_parse : string → option JSValue.
Variable JSON_stringify : JSValue → option string.

(** The client has the store handle, is signed in, and has entered a QR
    content that parses to a token with these three properties. *)
Definition presents (c : Client)
    (orderId patientOfferId salespersonId : JSValue) : Prop :=
  dbRef c = true ∧ userId c ≠ "" ∧ qrCodeInput c ≠ "" ∧
  ∃ qrData, JSON_parse (qrCodeInput c) = Some qrData ∧
    get_prop qrData "orderId" = inr orderId ∧
    get_prop qrData "patientOfferId" = inr patientOfferId ∧
    get_prop qrData "salespersonId" = inr salespersonId.

(** The claim request of client [c] resolves to the document at [r]:
    an order found by the [allOrders] query, or the appointment the
    token names. *)
Definition claim_resolves (c : Client) (d : Firestore)
    (type : RecordType) (r : DocRef) : Prop :=
  ∃ orderId patientOfferId salespersonId,
    presents c orderId patientOfferId salespersonId ∧
    match type with
    | order =>
        truthy orderId = true ∧
        ∃ k o rest, matchingOrders orderId d = (k, o) :: rest
                    ∧ r = AllOrdersRef k
    | appointment =>
        truthy orderId = false ∧
        ∃ pid, patientOfferId = JStr pid ∧ pid ≠ "" ∧ r = PatientOfferRef pid
    end.

(** Minting a token: the salesperson for the customer, the doctor for
    the salesperson. *)
Inductive Mint : Type :=
  | MintForCustomer (item : Item)
  | MintForSalesperson (offerId : string).

Definition mint (m : Mint) : M unit :=
  match m with
  | MintForCustomer item => handleGenerateCustomerQr JSON_stringify item
  | MintForSalesperson offerId => handleGenerateSalespersonQr JSON_stringify offerId
  end.

Definition mintData (uid : string) (m : Mint) : JSValue :=
  match m with
  | MintForCustomer item => customerQrData uid item
  | MintForSalesperson offerId => salespersonQrData uid offerId
  end.

End Requests.

(** The record is in the source status of its claim edge. *)
Definition claimable (data : DocData) : bool :=
  match data with
  | OrderData o => bool_decide (Order.status o = pending_salesperson_pickup)
  | AppointmentData a => bool_decide (Appointment.status a = accepted)
  end.

Definition notClaimable (type : RecordType) : Message :=
  match type with
  | order => OrderNotPendingPickup
  | appointment => AppointmentNotAccepted
  end.

Definition mapDoc (fo : Order.t → Order.t) (fa : Appointment.t → Appointment.t)
    (data : DocData) : DocData :=
  match data with
  | OrderData o => OrderData (fo o)
  | AppointmentData a => AppointmentData (fa a)
  end.

(** The state a handler leaves when it refuses with message [m]. *)
Definition rejected (m : Message) (c : Client) (d : Firestore) : Sys :=
  mkSys (setMessage m MessageType.error c) d.

(** The ledger entry of a donation. *)
Definition donationTransaction (c : Client) (institution : string) (amount : Z)
    : Transaction.t :=
  Transaction.mk donation amount (userId c) institution None None
    ServerTimestamp ("Donation from customer " ++ userId c).

(** * The creation handlers and the dashboard lists *)

(** The messages of [handleBuyNow], [handleRequestCheckup],
    [handlePurchaseProduct], [handleRoleSwitch] and [handleSelectRole].
    The model of these handlers returns the message displayed, [None]
    when the handler returns without one, and leaves the client as it
    was: what the message does to the state of the dashboards is not
    followed through these handlers, and the properties about them
    speak of the message and of the store. *)
Inductive Notice : Type :=
  | ProductNotFound                        (* Product not found. *)
  | OrderPlaced (productName : string)     (* Order for ... placed successfully! *)
  | FailedToPlaceOrder (e : Exn)           (* Failed to place order: ... *)
  | ReasonRequired                         (* Please provide a reason for checkup. *)
  | CheckupRequested (doctorName : string) (* Checkup request sent to Dr. ...! *)
  | FailedToRequestCheckup (e : Exn)       (* Failed to request checkup: ... *)
  | SelectProductToPurchase                (* Please select a product to purchase. *)
  | SelectedProductNotFound                (* Selected product not found. *)
  | ProductPurchased (productName : string) (* Product ... purchased successfully! *)
  | FailedToPurchase (e : Exn)             (* Failed to purchase product: ... *)
  | NotAuthenticated                       (* User not authenticated or database not ready. *)
  | SwitchedRole (role : string)           (* Switched to ... role. *)
  | FailedToSwitchRole (e : Exn)           (* Failed to switch role: ... *)
  | RoleSet (role : string)                (* Your role has been set to ... *)
  | FailedToSetRole (e : Exn).             (* Failed to set role: ... *)

(** [try { body } catch (error) { handler }] around a body with a result. *)
Definition try_catch_with {A} (body : M A) (handler : Exn → M A) : M A := λ s,
  match body s with
  | (s', Thrown e) => handler e s'
  | r => r
  end.

(** The state a computation leaves, and the value it ends with. *)
Definition exec {A} (h : M A) (s : Sys) : Sys := (h s).1.

Definition value {A} (h : M A) (s : Sys) : option A :=
  match (h s).2 with
  | Val a => Some a
  | _ => None
  end.

(** [await addDoc(collection(db, users/{uid}/orders), o)] and
    [await addDoc(collection(db, public/data/patientOffers), a)]: the
    store picks the id of the new document, here [newId]. *)
Definition addOrder (uid newId : string) (o : Order.t) : M unit :=
  d ← get_db;
  put_db (set_userOrders (<[(uid, newId) := o]> (userOrders d)) d).

Definition addPatientOffer (newId : string) (a : Appointment.t) : M unit :=
  d ← get_db;
  put_db (set_patientOffers (<[newId := a]> (patientOffers d)) d).

(** The order document [handleBuyNow] and [handlePurchaseProduct] write. *)
Definition newOrder (uid productId : string) (product : Product.t)
    (status : OrderStatus) : Order.t :=
  Order.mk None None productId (Product.name product)
    (Product.price product) uid status ServerTimestamp
    None None None None None None.

(** The appointment document [handleRequestCheckup] writes. *)
Definition newOffer (uid doctorId doctorName reason : string) : Appointment.t :=
  Appointment.mk uid uid doctorId doctorName reason ServerTimestamp pending
    None None None None None None None.

(** A customer buys a product. *)
Definition handleBuyNow (productId newId : string) : M (option Notice) :=
  c ← get_client;
  if negb (dbRef c) || negb (str_truthy (userId c)) then mret None
  else
    try_catch_with
      (match findProduct (Some productId) (products c) with
       | None => mret (Some ProductNotFound)
       | Some product =>
           addOrder (userId c) newId
             (newOrder (userId c) productId product pending_salesperson_pickup);;
           mret (Some (OrderPlaced (Product.name product)))
       end)
      (λ e, mret (Some (FailedToPlaceOrder e))).

(** The form of the appointment card of the customer dashboard. *)
Record CheckupForm : Type := mkCheckupForm {
  reasonForCheckup : string;
  selectedDoctorForAppointment : string;
}.

(** A customer requests a checkup from a doctor of the list. *)
Definition handleRequestCheckup (doctorId doctorName newId : string)
    (form : CheckupForm) : M (option Notice * CheckupForm) :=
  c ← get_client;
  if negb (dbRef c) || negb (str_truthy (userId c)) then mret (None, form)
  else if negb (str_truthy (reasonForCheckup form))
  then mret (Some ReasonRequired, form)
  else
    try_catch_with
      (addPatientOffer newId
         (newOffer (userId c) doctorId doctorName (reasonForCheckup form));;
       mret (Some (CheckupRequested doctorName), mkCheckupForm "" ""))
      (λ e, mret (Some (FailedToRequestCheckup e), form)).

(** A doctor buys a product; [selectedProductToPurchase] is the state of
    the selection, returned as the handler leaves it. *)
Definition handlePurchaseProduct (selectedProductToPurchase newId : string)
    : M (option Notice * string) :=
  c ← get_client;
  if negb (dbRef c) || negb (str_truthy (userId c))
     || negb (str_truthy selectedProductToPurchase)
  then mret (Some SelectProductToPurchase, selectedProductToPurchase)
  else
    try_catch_with
      (match findProduct (Some selectedProductToPurchase) (products c) with
       | None => mret (Some SelectedProductNotFound, selectedProductToPurchase)
       | Some product =>
           addOrder (userId c) newId
             (newOrder (userId c) selectedProductToPurchase product
                purchased_by_doctor);;
           mret (Some (ProductPurchased (Product.name product)), "")
       end)
      (λ e, mret (Some (FailedToPurchase e), selectedProductToPurchase)).

(** The listeners of the doctor and of the salesperson: the documents a
    query matches, each as [{ id: doc.id, ...doc.data() }], in the order
    the store lists them. *)
Definition doctorOffersSnapshot (uid : string) (d : Firestore)
    : list (string * Appointment.t) :=
  filter (λ ka, Appointment.doctorId ka.2 = uid
                ∧ (Appointment.status ka.2 = pending
                   ∨ Appointment.status ka.2 = accepted))
         (map_to_list (patientOffers d)).

Definition salespersonOffersSnapshot (uid : string) (d : Firestore)
    : list (string * Appointment.t) :=
  filter (λ ka, Appointment.salespersonId ka.2 = Some uid
                ∧ Appointment.status ka.2 = assigned_to_salesperson)
         (map_to_list (patientOffers d)).

Definition salespersonOrdersSnapshot (uid : string) (d : Firestore)
    : list (string * Order.t) :=
  (λ ko, (ko.1.2, ko.2)) <$>
    filter (λ ko, ko.1.1 = uid
                  ∧ Order.salespersonId ko.2 = Some uid
                  ∧ Order.status ko.2 = in_delivery)
           (map_to_list (userOrders d)).

(** The lists of the doctor dashboard. *)
Definition pendingOffers (uid : string) (patientOffers : list (string * Appointment.t))
    : list (string * Appointment.t) :=
  filter (λ ka, Appointment.status ka.2 = pending
                ∧ Appointment.doctorId ka.2 = uid) patientOffers.

Definition acceptedAppointments (uid : string)
    (patientOffers : list (string * Appointment.t))
    : list (string * Appointment.t) :=
  filter (λ ka, Appointment.status ka.2 = accepted
                ∧ Appointment.doctorId ka.2 = uid) patientOffers.

(** The list of the salesperson dashboard. *)
Definition allAssignedItems (uid : string)
    (customerOrders : list (string * Order.t))
    (patientOffers : list (string * Appointment.t)) : list Item :=
  ((λ ko, OrderItem ko.1 ko.2) <$>
     filter (λ ko, Order.salespersonId ko.2 = Some uid
                   ∧ Order.status ko.2 = in_delivery) customerOrders)
  ++ ((λ ka, OfferItem ka.1 ka.2) <$>
        filter (λ ka, Appointment.salespersonId ka.2 = Some uid
                      ∧ Appointment.status ka.2 = assigned_to_salesperson)
               patientOffers).

(** ** Role selection

    [handleRoleSwitch] and [handleSelectRole] write the profile of the
    signed-in user with [setDoc(ref, fields, { merge: true })]: the
    fields are merged into the document, which is created when absent.
    Of the fields they write, the profile record has [role]
    ([createdAt] is not part of it).  A profile created this way has no
    [name], no [coins] and no [approved] field; its [name] reads as the
    empty string here.  The state [userRole] is passed to the handler
    and returned as the handler leaves it. *)

Definition mergeRole (role : string) (p : option Profile.t) : Profile.t :=
  match p with
  | Some p => Profile.mk role (Profile.name p) (Profile.coins p) (Profile.approved p)
  | None => Profile.mk role "" None None
  end.

Definition setDocRole (uid role : string) : M unit :=
  d ← get_db;
  put_db (set_profiles (<[uid := mergeRole role (profiles d !! uid)]> (profiles d)) d).

Definition handleRoleSwitch (userRole : option string) (newRole : string)
    : M (option Notice * option string) :=
  c ← get_client;
  if negb (str_truthy (userId c)) || negb (dbRef c)
  then mret (Some NotAuthenticated, userRole)
  else
    try_catch_with
      (uid ← lift (path_segment (JStr (userId c)));
       setDocRole uid newRole;;
       mret (Some (SwitchedRole newRole), Some newRole))
      (λ e, mret (Some (FailedToSwitchRole e), userRole)).

Definition handleSelectRole (userRole : option string) (role : string)
    : M (option Notice * option string) :=
  c ← get_client;
  if negb (str_truthy (userId c)) || negb (dbRef c)
  then mret (Some NotAuthenticated, userRole)
  else
    try_catch_with
      (uid ← lift (path_segment (JStr (userId c)));
       setDocRole uid role;;
       mret (Some (RoleSet role), Some role))
      (λ e, mret (Some (FailedToSetRole e), userRole)).

(** ** Requests and approvals

    The administrator's side of the application: the requests of
    salespersons and institutions, and their approval, which writes the
    profile the coins are later credited to.  A request keeps, of its
    fields, the ones the modelled handlers write or read; the profile
    keeps the fields of the profile record.  These handlers display
    their message themselves; it is returned here, [None] when the
    handler returns without one. *)

Inductive RequestStatus : Type := request_pending | request_approved.

#[global] Instance RequestStatus_eq_dec : EqDecision RequestStatus.
Proof. solve_decision. Defined.

Module Request.
Record t : Type := mk {
  name : string;
  status : RequestStatus;
  managerAssignedId : option string;
  approvedAt : option Timestamp;
}.
End Request.

(** The store with the two collections of requests:
    [public/data/salespersonRequests] and
    [public/data/institutionRequests]. *)
Record Backoffice : Type := mkBackoffice {
  salespersonRequests : gmap string Request.t;
  institutionRequests : gmap string Request.t;
  store : Firestore;
}.

Inductive AdminNotice : Type :=
  | RequestSubmitted                   (* Salesperson|Institution request submitted! *)
  | ManagerIdRequired                  (* Manager Assigned ID is required. *)
  | Approved                           (* Salesperson|Institution approved successfully! *)
  | FailedToApprove (e : Exn).         (* Failed to approve salesperson|institution: ... *)

(** [handleSubmitInstitutionRequest]: [addDoc] of a request with
    [status: 'pending']; [newId] is the id the store gives it.  The
    fields of the form, which the handler clears, are not modelled. *)
Definition newRequest (name : string) : Request.t :=
  Request.mk name request_pending None None.

Definition handleSubmitInstitutionRequest (dbRef : bool) (institutionName newId : string)
    (b : Backoffice) : Backoffice * option AdminNotice :=
  if negb dbRef then (b, None)
  else (mkBackoffice (salespersonRequests b)
          (<[newId := newRequest institutionName]> (institutionRequests b))
          (store b),
        Some RequestSubmitted).

(** The fields an approval merges into the request. *)
Definition approveRequest (managerAssignedId : option string) (r : Request.t)
    : Request.t :=
  Request.mk (Request.name r) request_approved
    (match managerAssignedId with
     | Some m => Some m
     | None => Request.managerAssignedId r
     end)
    (Some ServerTimestamp).

(** [handleApproveSalesperson(requestId, currentSalespersonData)];
    [managerAssignedId] is what [prompt] returned, [None] for [null].
    The profile is written with [setDoc(ref, fields, { merge: true })],
    and the fields given cover the whole profile record. *)
Definition handleApproveSalesperson (dbRef : bool) (managerAssignedId : option string)
    (requestId name : string) (b : Backoffice)
    : Backoffice * option AdminNotice :=
  if negb (field_truthy managerAssignedId) then (b, Some ManagerIdRequired)
  else if negb dbRef then (b, None)
  else
    match path_segment (JStr requestId) with
    | inl e => (b, Some (FailedToApprove e))
    | inr docId =>
        match salespersonRequests b !! docId with
        | None => (b, Some (FailedToApprove (FirestoreError "not-found")))
        | Some r =>
            (mkBackoffice
               (<[docId := approveRequest managerAssignedId r]>
                  (salespersonRequests b))
               (institutionRequests b)
               (set_profiles
                  (<[docId := Profile.mk "salesperson" name (Some 0) (Some true)]>
                     (profiles (store b))) (store b)),
             Some Approved)
        end
    end.

Definition handleApproveInstitution (dbRef : bool) (requestId name : string)
    (b : Backoffice) : Backoffice * option AdminNotice :=
  if negb dbRef then (b, None)
  else
    match path_segment (JStr requestId) with
    | inl e => (b, Some (FailedToApprove e))
    | inr docId =>
        match institutionRequests b !! docId with
        | None => (b, Some (FailedToApprove (FirestoreError "not-found")))
        | Some r =>
            (mkBackoffice
               (salespersonRequests b)
               (<[docId := approveRequest None r]> (institutionRequests b))
               (set_profiles
                  (<[docId := Profile.mk "institution" name (Some 0) (Some true)]>
                     (profiles (store b))) (store b)),
             Some Approved)
        end
    end.

(** The listeners on the requests: the pending ones for the
    administrator, the approved institutions for the donation form,
    each as [{ id: doc.id, ...doc.data() }]. *)
Definition institutionRequestsSnapshot (b : Backoffice) : list (string * Request.t) :=
  filter (λ kr, Request.status kr.2 = request_pending)
         (map_to_list (institutionRequests b)).

Definition approvedInstitutionsSnapshot (b : Backoffice) : list Institution.t :=
  (λ kr, Institution.mk kr.1 (Request.name kr.2)) <$>
    filter (λ kr, Request.status kr.2 = request_approved)
           (map_to_list (institutionRequests b)).

(** ** Runs of the application *)

Section Runs.

Variable JSON_parse : string → option JSValue.
Variable JSON_stringify : JSValue → option string.

(** One run of a handler of the customer, salesperson or doctor
    dashboard, or of the role selection, by one client, from its first
    line to its last.  The id [addDoc] gives a new document is not in
    use.  The approvals of the administrator are not among these runs. *)
Inductive step : Firestore → Firestore → Prop :=
  | step_confirm c d :
      step d (db (run (handleConfirmTransferAndPayment JSON_parse) (mkSys c d)))
  | step_donate c d :
      step d (db (run handleDonateCoins (mkSys c d)))
  | step_take c d :
      step d (db (run (handleTakeOrderAppointment JSON_parse) (mkSys c d)))
  | step_accept c d offerId :
      step d (db (run (handleAcceptOffer JSON_stringify offerId) (mkSys c d)))
  | step_mint c d m :
      step d (db (run (mint JSON_stringify m) (mkSys c d)))
  | step_buy c d productId newId :
      userOrders d !! (userId c, newId) = None →
      step d (db (exec (handleBuyNow productId newId) (mkSys c d)))
  | step_request c d doctorId doctorName newId form :
      patientOffers d !! newId = None →
      step d (db (exec (handleRequestCheckup doctorId doctorName newId form)
                       (mkSys c d)))
  | step_purchase c d selected newId :
      userOrders d !! (userId c, newId) = None →
      step d (db (exec (handlePurchaseProduct selected newId) (mkSys c d)))
  | step_role_switch c d userRole newRole :
      step d (db (exec (handleRoleSwitch userRole newRole) (mkSys c d)))
  | step_select_role c d userRole role :
      step d (db (exec (handleSelectRole userRole role) (mkSys c d))).

(** Any number of runs, by any clients, one after the other. *)
Definition reaches : Firestore → Firestore → Prop := rtc step.

(** The text [JSON.stringify] gives for [tok] is not empty and
    [JSON.parse] reads [tok] back from it. *)
Definition transports (tok : JSValue) : Prop :=
  ∃ text, JSON_stringify tok = Some text ∧ text ≠ ""
          ∧ JSON_parse text = Some tok.

End Runs.

(** The ledger of a user, the sum of its amounts, and the balance of a
    user, [0] without a profile. *)
Definition ledger (uid : string) (d : Firestore) : list Transaction.t :=
  default [] (transactions d !! uid).

Definition ledgerTotal (uid : string) (d : Firestore) : Z :=
  foldr (λ tx total, Transaction.amount tx + total) 0 (ledger uid d).

Definition balanceOf (uid : string) (d : Firestore) : Z :=
  default 0 (Profile.balance <$> profiles d !! uid).

(** The entries of a ledger that pay for the appointment [k]. *)
Definition checkupPayments (k uid : string) (d : Firestore) : list Transaction.t :=
  filter (λ tx, Transaction.patientOfferId tx = Some k) (ledger uid d).

(** The store after a credit of [delta] to [u], recorded as [tx]. *)
Definition credited (u : string) (p : Profile.t) (delta : Z)
    (tx : Transaction.t) (d : Firestore) : Firestore :=
  set_transactions (<[u := (ledger u d ++ [tx])%list]> (transactions d))
    (set_profiles
       (<[u := Profile.set_coins (addCoins (Profile.coins p) delta) p]>
          (profiles d)) d).

(** The effects of the runs on the store.  Every run is a sequence of
    them ([step_writes] below); the invariants are read off this list.
    A confirmation is not on it: its first write is refused. *)
Inductive write : Firestore → Firestore → Prop :=
  | write_paid d u p delta tx :
      profiles d !! u = Some p →
      0 < delta →
      Transaction.amount tx = delta →
      Transaction.patientOfferId tx = None →
      write d (credited u p delta tx d)
  | write_order_assigned d k o uid :
      allOrders d !! k = Some o →
      Order.status o = pending_salesperson_pickup →
      field_truthy (Order.salespersonId o) = false →
      uid ≠ "" →
      write d (set_allOrders (<[k := assignOrder uid o]> (allOrders d)) d)
  | write_offer_assigned d k a uid :
      patientOffers d !! k = Some a →
      Appointment.status a = accepted →
      field_truthy (Appointment.salespersonId a) = false →
      uid ≠ "" →
      write d (set_patientOffers
                 (<[k := assignAppointment uid a]> (patientOffers d)) d)
  | write_accepted d k a :
      patientOffers d !! k = Some a →
      write d (set_patientOffers (<[k := acceptAppointment a]> (patientOffers d)) d)
  | write_order_created d uid k productId product status :
      userOrders d !! (uid, k) = None →
      status = pending_salesperson_pickup ∨ status = purchased_by_doctor →
      write d (set_userOrders
                 (<[(uid, k) := newOrder uid productId product status]>
                    (userOrders d)) d)
  | write_offer_created d k uid doctorId doctorName reason :
      patientOffers d !! k = None →
      write d (set_patientOffers
                 (<[k := newOffer uid doctorId doctorName reason]>
                    (patientOffers d)) d)
  | write_role d u role :
      write d (set_profiles (<[u := mergeRole role (profiles d !! u)]> (profiles d)) d).

(** No order under a customer's path is in delivery. *)
Definition undelivered (d : Firestore) : Prop :=
  ∀ k o, userOrders d !! k = Some o → Order.status o ≠ in_delivery.

(** The appointment [k] has a salesperson and is not waiting for its
    confirmation: it is [completed], or its status was written again
    after it had been claimed. *)
Definition settled (k : string) (d : Firestore) : Prop :=
  ∃ a, patientOffers d !! k = Some a
       ∧ field_truthy (Appointment.salespersonId a) = true
       ∧ Appointment.status a ≠ assigned_to_salesperson.

(** ** Vocabulary of the confirmations *)

Section Confirmations.

Variable JSON_parse : string → option JSValue.

(** The confirmation request of client [c] resolves to the document at
    [r]: the order of that id under the client's own path, or the
    appointment the token names; [salespersonId] is what the token says
    of the salesperson. *)
Definition confirm_resolves (c : Client) (type : RecordType)
    (salespersonId : JSValue) (r : DocRef) : Prop :=
  ∃ orderId patientOfferId,
    presents JSON_parse c orderId patientOfferId salespersonId ∧
    match type with
    | order =>
        ∃ oid, orderId = JStr oid ∧ oid ≠ "" ∧ r = UserOrderRef (userId c) oid
    | appointment =>
        truthy orderId = false ∧
        ∃ pid, patientOfferId = JStr pid ∧ pid ≠ "" ∧ r = PatientOfferRef pid
    end.

End Confirmations.

(** The record names [uid] as its customer or patient. *)
Definition ownedBy (uid : string) (data : DocData) : bool :=
  match data with
  | OrderData o => bool_decide (Order.customerId o = uid)
  | AppointmentData a => bool_decide (Appointment.patientId a = uid)
  end.

(** The record is in the source status of its confirmation edge. *)
Definition confirmable (data : DocData) : bool :=
  match data with
  | OrderData o => bool_decide (Order.status o = in_delivery)
  | AppointmentData a => bool_decide (Appointment.status a = assigned_to_salesperson)
  end.

Definition notForAccount (type : RecordType) : Message :=
  match type with
  | order => OrderNotForAccount
  | appointment => AppointmentNotForAccount
  end.

Definition notConfirmable (type : RecordType) : Message :=
  match type with
  | order => OrderNotInDelivery
  | appointment => AppointmentNotAssigned
  end.

(** * Sample data

    A store, three clients and a JSON codec for flat objects of strings,
    on which the properties are exercised. *)

Definition double_quote : string := String (ascii_of_nat 34) EmptyString.

Definition quoted (s : string) : string := double_quote ++ s ++ double_quote.

Fixpoint sample_members (props : list (string * JSValue)) : string :=
  match props with
  | [] => ""
  | (k, v) :: rest =>
      quoted k ++ ":"
      ++ match v with JStr s => quoted s | _ => "null" end
      ++ match rest with [] => "" | _ => "," ++ sample_members rest end
  end.

Definition sample_stringify (v : JSValue) : option string :=
  match v with
  | JObj props => Some ("{" ++ sample_members props ++ "}")
  | _ => None
  end.

Definition deliveryToken : JSValue :=
  JObj [("orderId", JStr "order1"); ("salespersonId", JStr "sales1")].

Definition checkupToken : JSValue :=
  JObj [("patientOfferId", JStr "offer1"); ("salespersonId", JStr "sales1")].

Definition sample_tokens : list JSValue :=
  [deliveryToken; checkupToken;
   salespersonQrData "doctor1" "offer1"; salespersonQrData "doctor1" "offer2"].

(** Parses what [sample_stringify] printed for one of the sample tokens. *)
Definition sample_parse (s : string) : option JSValue :=
  find (λ tok, bool_decide (sample_stringify tok = Some s)) sample_tokens.

Definition qr (tok : JSValue) : string :=
  generateQRCodeContent sample_stringify tok.

Definition product1 : Product.t :=
  Product.mk "product1" "Thermometer" (10 # 1) "SN-1" 5.

Definition order1 : Order.t :=
  Order.mk None None "product1" "Thermometer" (10 # 1) "customer1"
    in_delivery ServerTimestamp (Some "sales1") (Some ServerTimestamp)
    None None None None.

Definition offer (status : AppointmentStatus) (salespersonId : option string)
    : Appointment.t :=
  Appointment.mk "customer1" "customer1" "doctor1" "Dr. One" "cough"
    ServerTimestamp status None salespersonId None None None None None.

Definition sample_db : Firestore :=
  mkFirestore
    {[ ("customer1", "order1") := order1 ]}
    ∅
    {[ "offer1" := offer assigned_to_salesperson (Some "sales1");
       "offer2" := offer accepted None;
       "offer3" := offer pending None;
       "offer4" := offer completed (Some "sales1") ]}
    {[ "sales1" := Profile.mk "salesperson" "Sam" (Some 0) (Some true);
       "inst1" := Profile.mk "institution" "Clinic" (Some 0) (Some true) ]}
    ∅.

Definition customer1 (qrCodeInput amountToDonate : string) : Client :=
  mkClient true "customer1" [product1] [Institution.mk "inst1" "Clinic"]
    qrCodeInput amountToDonate "inst1" "" false None None.

Definition customer2 (qrCodeInput amountToDonate : string) : Client :=
  mkClient true "customer2" [product1] [Institution.mk "inst1" "Clinic"]
    qrCodeInput amountToDonate "inst1" "" false None None.

Definition salesperson (uid qrCodeInput : string) : Client :=
  mkClient true uid [product1] [] qrCodeInput "" "" "" false None None.

Definition doctor (uid : string) : Client :=
  mkClient true uid [product1] [] "" "" "" "" false None None.

(** Further stores, tokens and runs, for the properties of the runs,
    of the dashboards and of the approvals. *)

(** A store with the two profiles and no record. *)
Definition clinic_db : Firestore :=
  mkFirestore ∅ ∅ ∅ (profiles sample_db) ∅.

Definition offer5Token : JSValue :=
  customerQrData "sales1"
    (OfferItem "offer5" (offer assigned_to_salesperson (Some "sales1"))).

Definition orderItemToken : JSValue :=
  customerQrData "sales1" (OrderItem "order1" order1).

Definition journey_tokens : list JSValue :=
  [salespersonQrData "doctor1" "offer5"; offer5Token; orderItemToken; JObj [("salespersonId", JStr "sales1")]].

Definition journey_parse (s : string) : option JSValue :=
  find (λ tok, bool_decide (sample_stringify tok = Some s)) journey_tokens.

Definition signed_out : Client :=
  mkClient true "" [product1] [] (qr checkupToken) "20" "inst1" "" false
    None None.

(** Four runs on the sample store: [doctor1] accepts the completed
    [offer4] again, [customer1] donates 20 to [inst1], asks to confirm
    the checkup [offer1], which the store refuses, and orders
    [product1]. *)
Definition accepted_db : Firestore :=
  db (run (handleAcceptOffer sample_stringify "offer4")
          (mkSys (doctor "doctor1") sample_db)).

Definition donated_db : Firestore :=
  db (run handleDonateCoins (mkSys (customer1 "" "20") accepted_db)).

Definition confirmed_db : Firestore :=
  db (run (handleConfirmTransferAndPayment sample_parse)
          (mkSys (customer1 (qr checkupToken) "") donated_db)).

Definition later_db : Firestore :=
  db (exec (handleBuyNow "product1" "order2")
           (mkSys (customer1 "" "") confirmed_db)).

(** Two requests for the role of salesperson and none of an
    institution, over the store in which [inst1] has received 20 coins;
    one of the requests has the id of [inst1]. *)
Definition sample_backoffice : Backoffice :=
  mkBackoffice {[ "sales1" := newRequest "Sam"; "inst1" := newRequest "Clinic" ]}
    ∅ later_db.

(** * Properties *)

Ltac munfold :=
  cbv [run handleConfirmTransferAndPayment handleTakeOrderAppointment
       handleDonateCoins handleAcceptOffer handleGenerateCustomerQr
       handleGenerateSalespersonQr
       mbind mret M_bind M_ret get_client get_db modify_client put_db
       displayMessage return_ throw lift try_catch when parseQr getDoc
       updateDoc creditCoins updateProfileCoins addTransaction
       queryAllOrdersById lookupDoc mergeDoc claimChecks claimWrite
       afterMessage supported confirmationFields claimFields acceptFields
       forallb andb client db fst snd is_order is_appointment].

Ltac munfold_in H :=
  cbv [run handleConfirmTransferAndPayment handleTakeOrderAppointment
       handleDonateCoins handleAcceptOffer handleGenerateCustomerQr
       handleGenerateSalespersonQr
       mbind mret M_bind M_ret get_client get_db modify_client put_db
       displayMessage return_ throw lift try_catch when parseQr getDoc
       updateDoc creditCoins updateProfileCoins addTransaction
       queryAllOrdersById lookupDoc mergeDoc claimChecks claimWrite
       afterMessage supported confirmationFields claimFields acceptFields
       forallb andb client db fst snd is_order is_appointment] in H.

(** Decide the guards the context settles. *)
Ltac settle_guard :=
  match goal with
  | |- context [bool_decide ?P] =>
      first [ rewrite (bool_decide_eq_true_2 P) by (first [done | lia])
            | rewrite (bool_decide_eq_false_2 P) by (first [done | lia]) ]
  end.
Ltac guards := repeat settle_guard.

Ltac data_fields :=
  cbn [fmap option_fmap option_map customerId_is patientId_is order_status_is
       appointment_status_is data_salespersonId data_productId data_reason
       andb orb negb].

Ltac store_fields :=
  cbn [set_userOrders set_allOrders set_patientOffers set_profiles
       set_transactions userOrders allOrders patientOffers profiles
       transactions].

(** Case analysis on the test a stuck computation waits for. *)
Ltac inner_scrutinee t :=
  lazymatch t with
  | context [match ?y with _ => _ end] =>
      lazymatch y with
      | context [match _ with _ => _ end] => inner_scrutinee y
      | _ => y
      end
  end.

Ltac split_hyp H :=
  let T := type of H in
  let y := inner_scrutinee T in
  let E := fresh "E" in
  destruct y eqn:E; cbn beta iota in H; try discriminate H.

(** Closed goals on the sample data. *)
Ltac compute_it := vm_compute; first [reflexivity | discriminate | done].

Ltac presented :=
  repeat split; try compute_it; eexists; repeat split; compute_it.

Ltac transported :=
  eexists; split; [reflexivity|]; split; compute_it.

Ltac resolved offerId :=
  exists JUndefined, (JStr offerId), JUndefined;
  split; [presented | split; [reflexivity | by exists offerId]].

Lemma path_segment_inr v s :
  path_segment v = inr s → v = JStr s ∧ s ≠ "".
Proof.
  destruct v; cbn; try discriminate.
  case_bool_decide; [discriminate|]. by intros [= ->].
Qed.

Section Properties.

Variable JSON_parse : string → option JSValue.
Variable JSON_stringify : JSValue → option string.

Ltac start_qr H :=
  let Hdb := fresh "Hdb" in
  let Hu := fresh "Hu" in
  let Hq := fresh "Hq" in
  let tok := fresh "tok" in
  let Hp := fresh "Hp" in
  let H1 := fresh in
  let H2 := fresh in
  let H3 := fresh in
  destruct H as (Hdb & Hu & Hq & tok & Hp & H1 & H2 & H3);
  munfold; rewrite Hdb; unfold str_truthy; guards;
  cbn [negb orb]; rewrite Hp, H1, H2, ?H3.

Ltac hunfold_in H :=
  cbv [run exec handleConfirmTransferAndPayment handleTakeOrderAppointment
       handleDonateCoins handleAcceptOffer handleGenerateCustomerQr
       handleGenerateSalespersonQr handleBuyNow handleRequestCheckup
       handlePurchaseProduct handleRoleSwitch handleSelectRole
       try_catch_with addOrder addPatientOffer setDocRole
       mbind mret M_bind M_ret get_client get_db modify_client put_db
       displayMessage return_ throw lift try_catch when parseQr getDoc
       updateDoc creditCoins updateProfileCoins addTransaction
       queryAllOrdersById lookupDoc mergeDoc claimChecks claimWrite
       afterMessage supported confirmationFields claimFields acceptFields
       forallb andb client db fst snd is_order is_appointment] in H.

Ltac tidy_run :=
  repeat match goal with
  | E : path_segment _ = inr _ |- _ => apply path_segment_inr in E as [-> ?]
  | E : _ <$> _ = Some _ |- _ => apply fmap_Some in E as (? & ? & ?); simplify_eq
  | E : _ <$> _ = None |- _ => apply fmap_None in E
  | E : _ || _ = false |- _ => apply orb_false_elim in E as [? ?]
  | E : negb (str_truthy _) = false |- _ =>
      apply negb_false_iff, negb_true_iff, bool_decide_eq_false in E
  | E : true && negb _ = false |- _ =>
      cbn in E; apply negb_false_iff, bool_decide_eq_true in E
  | E : negb (order_status_is _ _) = false |- _ =>
      cbn in E; apply negb_false_iff, bool_decide_eq_true in E
  | E : negb (appointment_status_is _ _) = false |- _ =>
      cbn in E; apply negb_false_iff, bool_decide_eq_true in E
  | E : negb (customerId_is _ _) = false |- _ =>
      cbn in E; apply negb_false_iff, bool_decide_eq_true in E
  | E : negb (patientId_is _ _) = false |- _ =>
      cbn in E; apply negb_false_iff, bool_decide_eq_true in E
  | E : field_truthy (data_salespersonId _) = false |- _ => cbn in E
  | E : bool_decide _ = true |- _ => apply bool_decide_eq_true in E
  | E : bool_decide _ = false |- _ => apply bool_decide_eq_false in E
  end.

(** The store a run leaves, case by case. *)
Ltac run_cases s :=
  let Hs := fresh "Hs" in
  remember s as s' eqn:Hs; hunfold_in Hs;
  repeat split_hyp Hs;
  subst s'; cbn [db fst]; try apply rtc_refl; tidy_run.

(** *** Confirmations *)

Lemma presents_intro c qrData orderId patientOfferId salespersonId :
  negb (dbRef c) || negb (str_truthy (userId c))
    || negb (str_truthy (qrCodeInput c)) = false →
  JSON_parse (qrCodeInput c) = Some qrData →
  get_prop qrData "orderId" = inr orderId →
  get_prop qrData "patientOfferId" = inr patientOfferId →
  get_prop qrData "salespersonId" = inr salespersonId →
  presents JSON_parse c orderId patientOfferId salespersonId.
Proof.
  intros Hg Hp H1 H2 H3. unfold str_truthy in Hg.
  apply orb_false_elim in Hg as [Hg Hq].
  apply orb_false_elim in Hg as [Hd Hu].
  apply negb_false_iff in Hd, Hu, Hq.
  apply negb_true_iff, bool_decide_eq_false in Hu, Hq.
  repeat split; [done..|]. by exists qrData.
Qed.

Lemma addCoins_balance p delta :
  0 ≤ Profile.balance p → 0 < delta →
  Profile.balance (Profile.set_coins (addCoins (Profile.coins p) delta) p)
    = Profile.balance p + delta.
Proof.
  unfold Profile.balance, addCoins. cbn.
  destruct (Profile.coins p); intros; [|lia].
  case_bool_decide; lia.
Qed.

(** *** Rejected confirmations *)

Lemma confirm_order_not_owner c d pid sp oid o :
  presents JSON_parse c (JStr oid) pid sp → oid ≠ "" →
  userOrders d !! (userId c, oid) = Some o →
  Order.customerId o ≠ userId c →
  run (handleConfirmTransferAndPayment JSON_parse) (mkSys c d)
    = rejected OrderNotForAccount c d.
Proof.
  intros Hreq Hoid Hl Hc. start_qr Hreq.
  cbn [truthy path_segment]. guards. cbn [negb].
  rewrite Hl. data_fields. guards. reflexivity.
Qed.

Lemma confirm_appointment_not_owner c d v sp pid a :
  presents JSON_parse c v (JStr pid) sp → truthy v = false → pid ≠ "" →
  patientOffers d !! pid = Some a →
  Appointment.patientId a ≠ userId c →
  run (handleConfirmTransferAndPayment JSON_parse) (mkSys c d)
    = rejected AppointmentNotForAccount c d.
Proof.
  intros Hreq Hv Hpid Hl Hc. start_qr Hreq. rewrite Hv.
  cbn [truthy path_segment]. guards. cbn [negb].
  rewrite Hl. data_fields. guards. reflexivity.
Qed.



(** *** The status write of a confirmation

    A confirmation whose record passes every validation reaches its
    [updateDoc], whose data has [cashReceived] or [paymentConfirmed]
    [undefined]: the store refuses the data, the handler ends in its
    [catch] block, and nothing has been written. *)

Lemma confirm_refused_by_store c d type sp r data :
  confirm_resolves JSON_parse c type sp r →
  lookupDoc r d = Some data →
  ownedBy (userId c) data && confirmable data
    && strict_eq_field (data_salespersonId data) sp = true →
  run (handleConfirmTransferAndPayment JSON_parse) (mkSys c d)
    = rejected (FailedToConfirm (FirestoreError "invalid-argument")) c d.
Proof.
  intros (v & w & Hreq & Hres) Hl Hok. start_qr Hreq. destruct type.
  - destruct Hres as (oid & -> & Hne & ->).
    cbn [truthy path_segment]. guards. cbn [negb].
    cbn [lookupDoc] in Hl. rewrite Hl.
    apply fmap_Some in Hl as (o & Hl & ->). data_fields.
    cbn [ownedBy confirmable data_salespersonId] in *.
    apply andb_true_iff in Hok as [Hok ->].
    apply andb_true_iff in Hok as [-> ->]. reflexivity.
  - destruct Hres as (-> & pid & -> & Hne & ->).
    cbn [truthy path_segment]. guards. cbn [negb].
    cbn [lookupDoc] in Hl. rewrite Hl.
    apply fmap_Some in Hl as (a & Hl & ->). data_fields.
    cbn [ownedBy confirmable data_salespersonId] in *.
    apply andb_true_iff in Hok as [Hok ->].
    apply andb_true_iff in Hok as [-> ->]. reflexivity.
Qed.

(** No confirmation writes, and none reports success. *)
Lemma confirm_outcome c d :
  let s' := run (handleConfirmTransferAndPayment JSON_parse) (mkSys c d) in
  db s' = d
  ∧ ∃ m, message (client s') = Some m
         ∧ messageType (client s') = Some MessageType.error.
Proof.
  intros s'. remember s' as s eqn:Hs. subst s'. hunfold_in Hs.
  repeat split_hyp Hs.
  all: subst s; cbn [db client message messageType setMessage].
  all: split; [done|by eexists].
Qed.

Lemma confirm_db c d :
  db (run (handleConfirmTransferAndPayment JSON_parse) (mkSys c d)) = d.
Proof. apply confirm_outcome. Qed.

Lemma confirm_order_refused c d pid oid S o :
  presents JSON_parse c (JStr oid) pid (JStr S) → oid ≠ "" →
  userOrders d !! (userId c, oid) = Some o →
  Order.customerId o = userId c →
  Order.status o = in_delivery →
  Order.salespersonId o = Some S →
  run (handleConfirmTransferAndPayment JSON_parse) (mkSys c d)
    = rejected (FailedToConfirm (FirestoreError "invalid-argument")) c d.
Proof.
  intros Hreq Hoid Hl Hc Hst Hsp.
  apply (confirm_refused_by_store c d order (JStr S)
           (UserOrderRef (userId c) oid) (OrderData o)).
  - exists (JStr oid), pid. split; [done|]. by exists oid.
  - cbn [lookupDoc]. by rewrite Hl.
  - cbn. rewrite Hc, Hst, Hsp. cbn. by guards.
Qed.

Lemma confirm_appointment_refused c d v pid S a :
  presents JSON_parse c v (JStr pid) (JStr S) → truthy v = false → pid ≠ "" →
  patientOffers d !! pid = Some a →
  Appointment.patientId a = userId c →
  Appointment.status a = assigned_to_salesperson →
  Appointment.salespersonId a = Some S →
  run (handleConfirmTransferAndPayment JSON_parse) (mkSys c d)
    = rejected (FailedToConfirm (FirestoreError "invalid-argument")) c d.
Proof.
  intros Hreq Hv Hpid Hl Hc Hst Hsp.
  apply (confirm_refused_by_store c d appointment (JStr S)
           (PatientOfferRef pid) (AppointmentData a)).
  - exists v, (JStr pid). split; [done|]. split; [done|]. by exists pid.
  - cbn [lookupDoc]. by rewrite Hl.
  - cbn. rewrite Hc, Hst, Hsp. cbn. by guards.
Qed.

(** *** The confirmation edges *)

(** C3: the owning customer confirms an order that is [in_delivery]
    with salesperson [S], with a token naming [S], and the ordered
    product assigns 5 coins.  The claim has the order [delivered] and
    [S] paid; the code ends in its [catch] block: the data of the
    status write has [paymentConfirmed: undefined], the store refuses
    it, the order stays [in_delivery], and neither the balance nor the
    ledger of [S] changes. *)
Theorem delivery_confirmation_refused_by_store c d pid oid S o product :
  presents JSON_parse c (JStr oid) pid (JStr S) → oid ≠ "" →
  userOrders d !! (userId c, oid) = Some o →
  Order.customerId o = userId c →
  Order.status o = in_delivery →
  Order.salespersonId o = Some S →
  product ∈ products c →
  Product.id product = Order.productId o →
  Product.coinsAssigned product = 5 →
  let s' := run (handleConfirmTransferAndPayment JSON_parse) (mkSys c d) in
  message (client s')
    = Some (FailedToConfirm (FirestoreError "invalid-argument"))
  ∧ messageType (client s') = Some MessageType.error
  ∧ Order.status <$> userOrders (db s') !! (userId c, oid) = Some in_delivery
  ∧ profiles (db s') = profiles d
  ∧ transactions (db s') = transactions d.
Proof.
  intros Hreq Hoid Hl Hc Hst Hsp _ _ _ s'. subst s'.
  rewrite (confirm_order_refused c d pid oid S o) by done.
  cbn [rejected client db message messageType setMessage].
  by rewrite Hl, <-Hst.
Qed.

(** C10: the owning customer confirms an order that is [in_delivery]
    with a matching token, and the ordered product is not in the
    catalogue or assigns 0 coins.  The claim has the status advance to
    [delivered] all the same; in the code the status write is the call
    the store refuses: the order stays [in_delivery], and nothing is
    credited or recorded. *)
Theorem delivery_confirmation_without_reward_refused c d pid oid S o :
  presents JSON_parse c (JStr oid) pid (JStr S) → oid ≠ "" →
  userOrders d !! (userId c, oid) = Some o →
  Order.customerId o = userId c →
  Order.status o = in_delivery →
  Order.salespersonId o = Some S →
  (findProduct (Some (Order.productId o)) (products c) = None
   ∨ ∃ product,
       findProduct (Some (Order.productId o)) (products c) = Some product
       ∧ Product.coinsAssigned product = 0) →
  let s' := run (handleConfirmTransferAndPayment JSON_parse) (mkSys c d) in
  message (client s')
    = Some (FailedToConfirm (FirestoreError "invalid-argument"))
  ∧ messageType (client s') = Some MessageType.error
  ∧ Order.status <$> userOrders (db s') !! (userId c, oid) = Some in_delivery
  ∧ profiles (db s') = profiles d
  ∧ transactions (db s') = transactions d.
Proof.
  intros Hreq Hoid Hl Hc Hst Hsp _ s'. subst s'.
  rewrite (confirm_order_refused c d pid oid S o) by done.
  cbn [rejected client db message messageType setMessage].
  by rewrite Hl, <-Hst.
Qed.

(** C6: the owning patient confirms an appointment that is
    [assigned_to_salesperson] with salesperson [S], with a token naming
    [S].  The claim has the appointment [completed] and [S] credited;
    the code ends in its [catch] block: the data of the status write
    has [cashReceived: undefined], the store refuses it, the
    appointment stays [assigned_to_salesperson], and neither the
    balance nor the ledger of [S] changes. *)
Theorem checkup_confirmation_refused_by_store c d v pid S a :
  presents JSON_parse c v (JStr pid) (JStr S) → truthy v = false → pid ≠ "" →
  patientOffers d !! pid = Some a →
  Appointment.patientId a = userId c →
  Appointment.status a = assigned_to_salesperson →
  Appointment.salespersonId a = Some S →
  let s' := run (handleConfirmTransferAndPayment JSON_parse) (mkSys c d) in
  message (client s')
    = Some (FailedToConfirm (FirestoreError "invalid-argument"))
  ∧ messageType (client s') = Some MessageType.error
  ∧ Appointment.status <$> patientOffers (db s') !! pid
    = Some assigned_to_salesperson
  ∧ profiles (db s') = profiles d
  ∧ transactions (db s') = transactions d.
Proof.
  intros Hreq Hv Hpid Hl Hc Hst Hsp s'. subst s'.
  rewrite (confirm_appointment_refused c d v pid S a) by done.
  cbn [rejected client db message messageType setMessage].
  by rewrite Hl, <-Hst.
Qed.


(** *** The claim edges *)

Lemma mergeDoc_lookup r fo fa d data :
  lookupDoc r d = Some data →
  ∃ d', mergeDoc r fo fa d = Some d'
        ∧ lookupDoc r d' = Some (mapDoc fo fa data).
Proof.
  destruct r; cbn; intros (x & Hx & ->)%fmap_Some; rewrite Hx; cbn;
    eexists; (split; [done|]); store_fields; by rewrite lookup_insert_eq.
Qed.

Lemma matchingOrders_lookup v d k o rest :
  matchingOrders v d = (k, o) :: rest → allOrders d !! k = Some o.
Proof.
  intros H.
  assert (Hin : (k, o) ∈ matchingOrders v d) by (rewrite H; left).
  unfold matchingOrders in Hin.
  apply list_elem_of_filter in Hin as [_ Hin].
  by apply elem_of_map_to_list in Hin.
Qed.

Lemma claim_not_found c d type r :
  claim_resolves JSON_parse c d type r → lookupDoc r d = None →
  run (handleTakeOrderAppointment JSON_parse) (mkSys c d)
    = rejected RecordNotFound c d.
Proof.
  intros (v & w & sp & Hreq & Hres) Hl. start_qr Hreq.
  destruct type.
  - destruct Hres as (_ & k & o & rest & Hm & ->).
    cbn [lookupDoc] in Hl. rewrite (matchingOrders_lookup _ _ _ _ _ Hm) in Hl.
    discriminate.
  - destruct Hres as (-> & pid & -> & Hpid & ->).
    cbn [truthy path_segment]. guards. cbn [negb].
    cbn [lookupDoc] in Hl. rewrite Hl. reflexivity.
Qed.

(** What a claim does to the record it resolves to. *)
Lemma claim_outcome c d type r data :
  claim_resolves JSON_parse c d type r → lookupDoc r d = Some data →
  run (handleTakeOrderAppointment JSON_parse) (mkSys c d) =
    if negb (claimable data) then rejected (notClaimable type) c d
    else if field_truthy (data_salespersonId data)
    then rejected AlreadyAssignedToSalesperson c d
    else mkSys (setQrCodeInput ""
                  (setMessage (AssignedToYou type) MessageType.success c))
           (default d (mergeDoc r (assignOrder (userId c))
                                  (assignAppointment (userId c)) d)).
Proof.
  intros (v & w & sp & Hreq & Hres) Hl. start_qr Hreq.
  destruct type.
  - destruct Hres as (-> & k & o & rest & Hm & ->). rewrite Hm.
    cbn [lookupDoc] in Hl. rewrite Hl.
    apply fmap_Some in Hl as (o' & Hl & ->). data_fields. cbn [claimable].
    case_bool_decide; cbn [negb]; [|done].
    destruct (field_truthy _); [done|].
    rewrite Hl. reflexivity.
  - destruct Hres as (-> & pid & -> & Hpid & ->).
    cbn [truthy path_segment]. guards. cbn [negb].
    cbn [lookupDoc] in Hl. rewrite Hl.
    apply fmap_Some in Hl as (a & Hl & ->). data_fields. cbn [claimable].
    case_bool_decide; cbn [negb]; [|done].
    destruct (field_truthy _); [done|].
    rewrite Hl. reflexivity.
Qed.

(** Run without interleaving, the handler is its checks followed by its
    write. *)
Lemma claim_checks_then_write c d :
  dbRef c = true → userId c ≠ "" → qrCodeInput c ≠ "" →
  run (handleTakeOrderAppointment JSON_parse) (mkSys c d)
    = let '(s1, r1) := claimChecks JSON_parse c (mkSys c d) in
      run (finishClaim c r1) s1.
Proof.
  intros Hdb Hu Hq.
  cbv [run handleTakeOrderAppointment finishClaim mbind mret M_bind M_ret
       get_client when try_catch return_ throw client fst].
  rewrite Hdb. unfold str_truthy. guards. cbn [negb orb].
  by destruct (claimChecks JSON_parse c _) as [s1 [target| |e]].
Qed.

Lemma assigned_not_claimable uid data :
  claimable (mapDoc (assignOrder uid) (assignAppointment uid) data) = false.
Proof. by destruct data. Qed.

(** C4 (amended): a claim on a record whose [salespersonId] is already
    set fails and leaves the store unchanged; it fails with
    [AlreadyAssigned] when the record is still in the source status of
    the edge and with [InvalidState] otherwise, the status being checked
    first.  Of two successive claims on the same record at most one
    succeeds: once the first has succeeded, the second fails with
    [InvalidState] and changes nothing. *)
Theorem claim_on_assigned_record_rejected c1 c2 d type r data :
  claim_resolves JSON_parse c1 d type r →
  lookupDoc r d = Some data →
  let s1 := run (handleTakeOrderAppointment JSON_parse) (mkSys c1 d) in
  (field_truthy (data_salespersonId data) = true →
   db s1 = d ∧
   ∃ m, message (client s1) = Some m
        ∧ messageType (client s1) = Some MessageType.error
        ∧ error_kind m
          = Some (if claimable data then AlreadyAssigned else InvalidState))
  ∧
  (message (client s1) = Some (AssignedToYou type) →
   ∀ type2, claim_resolves JSON_parse c2 (db s1) type2 r →
   let s2 := run (handleTakeOrderAppointment JSON_parse) (mkSys c2 (db s1)) in
   db s2 = db s1 ∧
   ∃ m, message (client s2) = Some m
        ∧ messageType (client s2) = Some MessageType.error
        ∧ error_kind m = Some InvalidState).
Proof.
  intros Hres Hl s1. subst s1.
  rewrite (claim_outcome c1 d type r data Hres Hl). split.
  - intros Hset. rewrite Hset.
    destruct (claimable data); cbn [negb].
    + split; [done|]. by exists AlreadyAssignedToSalesperson.
    + split; [done|]. exists (notClaimable type). by destruct type.
  - destruct (claimable data); cbn [negb];
      [|by destruct type].
    destruct (field_truthy _); [done|]. intros _ type2 Hres2.
    cbn [db] in *.
    destruct (mergeDoc_lookup r (assignOrder (userId c1))
                (assignAppointment (userId c1)) d data Hl) as (d' & Hm & Hl').
    rewrite Hm in *. cbn [default from_option id] in *.
    rewrite (claim_outcome c2 d' type2 r _ Hres2 Hl').
    rewrite assigned_not_claimable. cbn [negb].
    split; [done|]. exists (notClaimable type2). by destruct type2.
Qed.

(** *** Donations *)

Lemma parseInt_nonempty s n : parseInt s = Some n → s ≠ "".
Proof. by intros H ->. Qed.

Lemma donate_outcome c d institution amount p :
  dbRef c = true → userId c ≠ "" →
  selectedInstitutionForDonation c = institution → institution ≠ "" →
  parseInt (amountToDonate c) = Some amount → 0 < amount →
  profiles d !! institution = Some p →
  run handleDonateCoins (mkSys c d) =
  mkSys (setSelectedInstitutionForDonation ""
           (setAmountToDonate ""
              (setMessage
                 (Donated amount
                    (institutionName institution (approvedInstitutions c)))
                 MessageType.success c)))
    (set_transactions
       (<[institution := (default [] (transactions d !! institution)
                          ++ [donationTransaction c institution amount])%list]>
          (transactions d))
       (set_profiles
          (<[institution := Profile.set_coins
                              (addCoins (Profile.coins p) amount) p]>
             (profiles d)) d)).
Proof.
  intros Hdb Hu Hi Hne Hp Hpos Hpr.
  pose proof (parseInt_nonempty _ _ Hp) as Ha.
  munfold. rewrite Hdb, Hi, Hp. unfold str_truthy. guards. cbn [negb orb].
  guards. cbn [path_segment]. guards. rewrite Hpr. reflexivity.
Qed.

(** C7: a customer donating 20 to an institution whose balance was 0
    leaves the institution with a balance of 20, appends exactly one
    [donation] transaction of amount 20 from the customer to the
    institution, and debits nobody: every other profile is untouched
    and the donor's own balance does not decrease. *)
Theorem donation_credits_institution c d institution p :
  dbRef c = true → userId c ≠ "" →
  selectedInstitutionForDonation c = institution → institution ≠ "" →
  parseInt (amountToDonate c) = Some 20 →
  profiles d !! institution = Some p →
  Profile.balance p = 0 →
  let s' := run handleDonateCoins (mkSys c d) in
  message (client s')
    = Some (Donated 20 (institutionName institution (approvedInstitutions c))) ∧
  Profile.balance <$> profiles (db s') !! institution = Some 20 ∧
  transactions (db s')
    = <[institution := (default [] (transactions d !! institution)
                        ++ [Transaction.mk donation 20 (userId c) institution
                              None None ServerTimestamp
                              ("Donation from customer " ++ userId c)])%list]>
        (transactions d) ∧
  (∀ u, u ≠ institution → profiles (db s') !! u = profiles d !! u) ∧
  (∀ pc, profiles d !! userId c = Some pc →
     ∃ pc', profiles (db s') !! userId c = Some pc'
            ∧ Profile.balance pc ≤ Profile.balance pc').
Proof.
  intros Hdb Hu Hi Hne Hp Hpr Hbal s'. subst s'.
  rewrite (donate_outcome c d institution 20 p) by (done || lia).
  cbn [client db message setSelectedInstitutionForDonation setAmountToDonate
       setMessage]. store_fields.
  assert (Hnew : Profile.balance
                   (Profile.set_coins (addCoins (Profile.coins p) 20) p) = 20).
  { rewrite addCoins_balance by lia. lia. }
  split; [done|]. split.
  { rewrite lookup_insert_eq. cbn [fmap option_fmap option_map].
    by rewrite Hnew. }
  split; [done|]. split; [by intros u Hne'; rewrite lookup_insert_ne|].
  intros pc Hpc. destruct (decide (userId c = institution)) as [He|He].
  - rewrite He in *. rewrite lookup_insert_eq. eexists; split; [done|].
    rewrite Hnew. simplify_eq. lia.
  - rewrite lookup_insert_ne by done. by exists pc.
Qed.

(** C8: a donation whose amount does not parse as a number, or is not
    positive, is refused with [ValidationError] and leaves the store
    unchanged: no balance is modified and no transaction is appended. *)
Theorem invalid_donation_rejected c d :
  (parseInt (amountToDonate c) = None
   ∨ ∃ amount, parseInt (amountToDonate c) = Some amount ∧ amount ≤ 0) →
  let s' := run handleDonateCoins (mkSys c d) in
  db s' = d ∧
  ∃ m, message (client s') = Some m
       ∧ messageType (client s') = Some MessageType.error
       ∧ error_kind m = Some ValidationError.
Proof.
  intros Hbad s'. subst s'. munfold.
  destruct (negb (dbRef c) || _ || _ || _).
  - split; [done|]. by exists SelectInstitutionAndAmount.
  - destruct Hbad as [-> | (amount & -> & Hle)].
    + split; [done|]. by exists AmountNotPositive.
    + guards. split; [done|]. by exists AmountNotPositive.
Qed.

(** *** Minting tokens *)

Lemma mint_db m s : db (run (mint JSON_stringify m) s) = db s.
Proof. by destruct m, s. Qed.

Lemma mint_idempotent m s : run (mint JSON_stringify m) (run (mint JSON_stringify m) s) = run (mint JSON_stringify m) s.
Proof. by destruct m, s. Qed.

(** C9: minting tokens, any number of times and for any items, never
    changes the store (status, assigned actors, balances, ledger); and
    minting the same token again leaves exactly what the first mint
    left, the same token content included. *)
Theorem minting_changes_nothing (mints : list Mint) (m : Mint) (n : nat) s :
  db (foldl (λ s m, run (mint JSON_stringify m) s) s mints) = db s ∧
  Nat.iter n (run (mint JSON_stringify m)) (run (mint JSON_stringify m) s)
    = run (mint JSON_stringify m) s ∧
  currentQrContent (client (run (mint JSON_stringify m) s))
    = generateQRCodeContent JSON_stringify (mintData (userId (client s)) m).
Proof.
  split; [|split].
  - revert s. induction mints as [|m' mints IH]; intros s; [done|].
    cbn [foldl]. by rewrite IH, mint_db.
  - induction n as [|n IH]; [done|].
    by rewrite Nat.iter_succ, IH, mint_idempotent.
  - by destruct m, s.
Qed.

(** *** Acceptance *)

(** [handleAcceptOffer] writes [accepted] on every existing offer,
    whatever its status and whoever the doctor named on it is. *)
Lemma accept_outcome c d offerId a :
  dbRef c = true → userId c ≠ "" → offerId ≠ "" →
  patientOffers d !! offerId = Some a →
  run (handleAcceptOffer JSON_stringify offerId) (mkSys c d) =
  mkSys (setMessage OfferAccepted MessageType.success c)
    (set_patientOffers (<[offerId := acceptAppointment a]> (patientOffers d)) d).
Proof.
  intros Hdb Hu Hne Hl. munfold. rewrite Hdb. unfold str_truthy. guards.
  cbn [negb orb path_segment]. guards. rewrite Hl. reflexivity.
Qed.

(** *** Every run is a sequence of writes *)

Ltac one_write :=
  apply rtc_once;
  first [ by eapply write_order_assigned | by eapply write_offer_assigned
        | by eapply write_accepted | by eapply write_order_created; eauto
        | by eapply write_offer_created | by eapply write_role ].

Lemma confirm_writes c d :
  rtc write d (db (run (handleConfirmTransferAndPayment JSON_parse) (mkSys c d))).
Proof. rewrite confirm_db. apply rtc_refl. Qed.

Lemma donate_writes c d :
  rtc write d (db (run handleDonateCoins (mkSys c d))).
Proof.
  run_cases (run handleDonateCoins (mkSys c d)).
  all: lazymatch goal with
       | |- rtc write ?d
              (set_transactions (<[?u := (_ ++ [?tx])%list]> _)
                 (set_profiles
                    (<[_ := Profile.set_coins (addCoins _ ?delta) ?p]> _) ?d)) =>
           apply rtc_once, (write_paid d u p delta tx); first [done | lia]
       end.
Qed.

Lemma take_writes c d :
  rtc write d (db (run (handleTakeOrderAppointment JSON_parse) (mkSys c d))).
Proof.
  run_cases (run (handleTakeOrderAppointment JSON_parse) (mkSys c d)).
  all: one_write.
Qed.

Lemma accept_writes c d offerId :
  rtc write d (db (run (handleAcceptOffer JSON_stringify offerId) (mkSys c d))).
Proof.
  run_cases (run (handleAcceptOffer JSON_stringify offerId) (mkSys c d)).
  all: one_write.
Qed.

Lemma buy_writes c d productId newId :
  userOrders d !! (userId c, newId) = None →
  rtc write d (db (exec (handleBuyNow productId newId) (mkSys c d))).
Proof.
  intros Hfresh.
  run_cases (exec (handleBuyNow productId newId) (mkSys c d)).
  all: one_write.
Qed.

Lemma request_writes c d doctorId doctorName newId form :
  patientOffers d !! newId = None →
  rtc write d (db (exec (handleRequestCheckup doctorId doctorName newId form)
                        (mkSys c d))).
Proof.
  intros Hfresh.
  run_cases (exec (handleRequestCheckup doctorId doctorName newId form) (mkSys c d)).
  all: one_write.
Qed.

Lemma purchase_writes c d selected newId :
  userOrders d !! (userId c, newId) = None →
  rtc write d (db (exec (handlePurchaseProduct selected newId) (mkSys c d))).
Proof.
  intros Hfresh.
  run_cases (exec (handlePurchaseProduct selected newId) (mkSys c d)).
  all: one_write.
Qed.

Lemma role_switch_writes c d userRole newRole :
  rtc write d (db (exec (handleRoleSwitch userRole newRole) (mkSys c d))).
Proof.
  run_cases (exec (handleRoleSwitch userRole newRole) (mkSys c d)).
  all: one_write.
Qed.

Lemma select_role_writes c d userRole role :
  rtc write d (db (exec (handleSelectRole userRole role) (mkSys c d))).
Proof.
  run_cases (exec (handleSelectRole userRole role) (mkSys c d)).
  all: one_write.
Qed.

Lemma step_writes d d' :
  step JSON_parse JSON_stringify d d' → rtc write d d'.
Proof.
  destruct 1.
  - apply confirm_writes.
  - apply donate_writes.
  - apply take_writes.
  - apply accept_writes.
  - rewrite mint_db. apply rtc_refl.
  - by apply buy_writes.
  - by apply request_writes.
  - by apply purchase_writes.
  - apply role_switch_writes.
  - apply select_role_writes.
Qed.

Lemma reaches_writes d d' :
  reaches JSON_parse JSON_stringify d d' → rtc write d d'.
Proof.
  induction 1 as [|d1 d2 d3 H _ IH]; [apply rtc_refl|].
  etrans; [by apply step_writes|done].
Qed.

(** *** What the writes preserve *)

Lemma ledger_credited u' u p delta tx d :
  ledger u' (credited u p delta tx d)
    = if decide (u' = u) then (ledger u d ++ [tx])%list else ledger u' d.
Proof.
  unfold ledger, credited. store_fields.
  destruct (decide _) as [->|]; [by rewrite lookup_insert_eq|].
  by rewrite lookup_insert_ne.
Qed.

Lemma balanceOf_credited u' u p delta tx d :
  balanceOf u' (credited u p delta tx d)
    = if decide (u' = u) then addCoins (Profile.coins p) delta
      else balanceOf u' d.
Proof.
  unfold balanceOf, credited. store_fields.
  destruct (decide _) as [->|]; [by rewrite lookup_insert_eq|].
  by rewrite lookup_insert_ne.
Qed.

Lemma balanceOf_role u' u role d :
  balanceOf u' (set_profiles (<[u := mergeRole role (profiles d !! u)]> (profiles d)) d)
    = balanceOf u' d.
Proof.
  unfold balanceOf. store_fields.
  destruct (decide (u' = u)) as [->|]; [|by rewrite lookup_insert_ne].
  rewrite lookup_insert_eq. by destruct (profiles d !! u).
Qed.

Lemma balanceOf_lookup u p d :
  profiles d !! u = Some p → balanceOf u d = Profile.balance p.
Proof. unfold balanceOf. by intros ->. Qed.

Lemma addCoins_grows p delta :
  0 < delta → Profile.balance p < addCoins (Profile.coins p) delta.
Proof.
  unfold Profile.balance, addCoins. destruct (Profile.coins p); [|lia].
  case_bool_decide; lia.
Qed.

Lemma addCoins_sum p delta :
  0 ≤ Profile.balance p → 0 < delta →
  addCoins (Profile.coins p) delta = Profile.balance p + delta.
Proof.
  unfold Profile.balance, addCoins. destruct (Profile.coins p); [|lia].
  case_bool_decide; lia.
Qed.

Lemma ledgerTotal_credited u' u p delta tx d :
  Transaction.amount tx = delta →
  ledgerTotal u' (credited u p delta tx d)
    = if decide (u' = u) then ledgerTotal u d + delta else ledgerTotal u' d.
Proof.
  intros <-. unfold ledgerTotal. rewrite ledger_credited.
  destruct (decide _); [|done].
  induction (ledger u d) as [|tx' l IH]; cbn; [lia|]. rewrite IH. lia.
Qed.

(** The four accounts of a write: the ledger, the balance, the presence
    of a profile, and the agreement of the balance with the ledger. *)
Lemma write_ledger d d' u :
  write d d' → ledger u d `prefix_of` ledger u d'.
Proof.
  destruct 1; try reflexivity.
  all: rewrite ledger_credited; destruct (decide _) as [->|]; try reflexivity.
  all: by apply prefix_app_r.
Qed.

Lemma write_balance d d' u :
  write d d' → balanceOf u d ≤ balanceOf u d'.
Proof.
  destruct 1; try reflexivity.
  - rewrite balanceOf_credited. destruct (decide _) as [->|]; [|reflexivity].
    erewrite (balanceOf_lookup u0 p d) by done.
    pose proof (addCoins_grows p delta). lia.
  - by rewrite balanceOf_role.
Qed.

Lemma write_profile_kept d d' u :
  write d d' → is_Some (profiles d !! u) → is_Some (profiles d' !! u).
Proof.
  destruct 1; try done; unfold credited; store_fields; intros Hu.
  all: destruct (decide (u = u0)) as [->|];
    [by rewrite lookup_insert_eq | by rewrite lookup_insert_ne].
Qed.

Lemma write_reconciles d d' :
  write d d' → (∀ u, 0 ≤ balanceOf u d) →
  ∀ u, 0 ≤ balanceOf u d'
       ∧ balanceOf u d' - balanceOf u d = ledgerTotal u d' - ledgerTotal u d.
Proof.
  intros Hw Hpos u. pose proof (write_balance d d' u Hw) as Hle.
  split; [specialize (Hpos u); lia|].
  destruct Hw; try (unfold balanceOf, ledgerTotal, ledger; store_fields; lia).
  - rewrite balanceOf_credited, ledgerTotal_credited by done.
    destruct (decide _) as [->|]; [|lia].
    specialize (Hpos u0). rewrite (balanceOf_lookup u0 p d) in * by done.
    rewrite addCoins_sum by (done || lia). lia.
  - rewrite balanceOf_role.
    unfold ledgerTotal, ledger; store_fields; lia.
Qed.

Lemma writes_reconcile d d' :
  rtc write d d' → (∀ u, 0 ≤ balanceOf u d) →
  ∀ u, 0 ≤ balanceOf u d'
       ∧ balanceOf u d' - balanceOf u d = ledgerTotal u d' - ledgerTotal u d.
Proof.
  induction 1 as [d|d1 d2 d3 Hw _ IH]; intros Hpos u; [split; [done|lia]|].
  pose proof (write_reconciles d1 d2 Hw Hpos) as H12.
  destruct (IH (λ u, proj1 (H12 u)) u) as [? ?].
  destruct (H12 u) as [_ ?]. split; [done|lia].
Qed.




(** An order is out of reach of every write. *)
Lemma write_order_frozen d d' k o :
  write d d' → userOrders d !! k = Some o → Order.status o ≠ in_delivery →
  userOrders d' !! k = Some o.
Proof.
  destruct 1; try done; store_fields; intros Hk Hst.
  destruct (decide (k = (uid, k0))) as [->|]; [congruence|].
  by rewrite lookup_insert_ne.
Qed.

Lemma writes_order_frozen d d' k o :
  rtc write d d' → userOrders d !! k = Some o → Order.status o ≠ in_delivery →
  userOrders d' !! k = Some o.
Proof.
  induction 1 as [d|d1 d2 d3 Hw _ IH]; [done|]. intros Hk Hst.
  apply IH; [|done]. by eapply write_order_frozen.
Qed.

Lemma write_undelivered d d' : write d d' → undelivered d → undelivered d'.
Proof.
  destruct 1; try done; intros Hu k' o' Hk';
    cbn [set_userOrders userOrders] in Hk'.
  destruct (decide (k' = (uid, k))) as [->|].
  - rewrite lookup_insert_eq in Hk'. simplify_eq.
    destruct H0 as [-> | ->]; done.
  - rewrite lookup_insert_ne in Hk' by done. by eapply Hu.
Qed.

Lemma writes_undelivered d d' : rtc write d d' → undelivered d → undelivered d'.
Proof.
  induction 1 as [d|d1 d2 d3 Hw _ IH]; [done|].
  intros Hu. by apply IH, (write_undelivered d1 d2).
Qed.

(** A settled appointment stays settled, and no payment for it is
    appended. *)
Lemma write_settled k d d' :
  write d d' → settled k d →
  settled k d' ∧ ∀ u, checkupPayments k u d' = checkupPayments k u d.
Proof.
  intros Hw (a & Hk & Hsp & Hst). destruct Hw; split.
  all: try (by exists a).
  all: try (intros u'; unfold checkupPayments; rewrite ?ledger_credited; done).
  all: try (unfold settled, credited; store_fields;
            destruct (decide (k0 = k)) as [->|];
            [ first [ congruence
                    | simplify_eq; eexists; by rewrite lookup_insert_eq ]
            | exists a; by rewrite lookup_insert_ne ]).
  all: intros u'; unfold checkupPayments; rewrite ledger_credited;
    destruct (decide _) as [->|]; [|done];
    rewrite filter_app, filter_cons_False, filter_nil, app_nil_r;
    [done|congruence].
Qed.

Lemma writes_settled k d d' :
  rtc write d d' → settled k d →
  settled k d' ∧ ∀ u, checkupPayments k u d' = checkupPayments k u d.
Proof.
  induction 1 as [d|d1 d2 d3 Hw _ IH]; [done|]. intros Hs.
  destruct (write_settled k d1 d2 Hw Hs) as [Hs2 H12].
  destruct (IH Hs2) as [Hs3 H23]. split; [done|].
  intros u. by rewrite H23.
Qed.

Lemma writes_ledger d d' u :
  rtc write d d' → ledger u d `prefix_of` ledger u d'.
Proof.
  induction 1 as [d|d1 d2 d3 Hw _ IH]; [done|].
  etrans; [by apply write_ledger|done].
Qed.

Lemma writes_balance d d' u :
  rtc write d d' →
  balanceOf u d ≤ balanceOf u d'
  ∧ (is_Some (profiles d !! u) → is_Some (profiles d' !! u)).
Proof.
  induction 1 as [d|d1 d2 d3 Hw _ [IH1 IH2]]; [done|].
  pose proof (write_balance d1 d2 u Hw).
  pose proof (write_profile_kept d1 d2 u Hw). split; [lia|auto].
Qed.

Lemma balances_not_negative d :
  map_Forall (λ _ p, 0 ≤ Profile.balance p) (profiles d) →
  ∀ u, 0 ≤ balanceOf u d.
Proof.
  intros H u. unfold balanceOf.
  destruct (profiles d !! u) as [p|] eqn:E; [|done]. by apply (H u p).
Qed.

Lemma confirm_of_undelivered c d :
  undelivered d →
  let s' := run (handleConfirmTransferAndPayment JSON_parse) (mkSys c d) in
  userOrders (db s') = userOrders d
  ∧ message (client s') ≠ Some (ConfirmedAndPaid order).
Proof.
  intros Hu s'. remember s' as s eqn:Hs. subst s'. hunfold_in Hs.
  repeat split_hyp Hs.
  all: subst s; cbn [db client message setMessage setQrCodeInput]; tidy_run.
  all: try (split; [done|discriminate]).
  all: exfalso; eapply Hu; eauto.
Qed.

Lemma no_order_in_delivery_listed uid d :
  undelivered d → salespersonOrdersSnapshot uid d = [].
Proof.
  intros Hu. unfold salespersonOrdersSnapshot.
  destruct (filter _ _) as [|[k o] l] eqn:E; [done|].
  assert (Hin : (k, o) ∈ filter
            (λ ko : string * string * Order.t, ko.1.1 = uid
               ∧ Order.salespersonId ko.2 = Some uid
               ∧ Order.status ko.2 = in_delivery)
            (map_to_list (userOrders d))) by (rewrite E; left).
  apply list_elem_of_filter in Hin as [(_ & _ & Hst) Hin].
  apply elem_of_map_to_list in Hin. by destruct (Hu k o).
Qed.

(** *** Donations that overlap *)

Lemma donation_read_outcome c s institution amount :
  dbRef c = true → userId c ≠ "" →
  selectedInstitutionForDonation c = institution → institution ≠ "" →
  parseInt (amountToDonate c) = Some amount → 0 < amount →
  donationRead c s
    = (s, Val (institution, amount,
               profiles (db s) !! institution ≫= Profile.coins)).
Proof.
  intros Hdb Hu Hi Hne Hp Hpos.
  pose proof (parseInt_nonempty _ _ Hp) as Ha.
  cbv [donationRead when mbind mret M_bind M_ret lift get_db].
  rewrite Hdb, Hi, Hp. unfold str_truthy. guards. cbn [negb orb].
  guards. cbn [path_segment]. guards. by destruct s.
Qed.

Lemma donation_write_outcome c s institution amount coins p :
  profiles (db s) !! institution = Some p →
  run (finishDonation c (Val (institution, amount, coins))) s
    = mkSys (setMessage
               (Donated amount
                  (institutionName institution (approvedInstitutions c)))
               MessageType.success (client s))
        (set_transactions
           (<[institution := (default [] (transactions (db s) !! institution)
                              ++ [donationTransaction c institution amount])%list]>
              (transactions (db s)))
           (set_profiles
              (<[institution := Profile.set_coins (addCoins coins amount) p]>
                 (profiles (db s))) (db s))).
Proof.
  intros Hpr.
  cbv [run finishDonation donationWrite try_catch mbind mret M_bind M_ret
       updateProfileCoins addTransaction displayMessage afterMessage
       get_db put_db modify_client client db fst].
  destruct s as [k d]. cbn [db client] in *. by rewrite Hpr.
Qed.

(** Run without interleaving, the handler is its read followed by its
    write. *)
Lemma donation_read_then_write c d :
  run handleDonateCoins (mkSys c d)
    = let '(s1, r1) := donationRead c (mkSys c d) in
      run (finishDonation c r1) s1.
Proof.
  cbv [run handleDonateCoins donationRead finishDonation donationWrite
       creditCoins updateProfileCoins addTransaction displayMessage
       afterMessage try_catch when return_ throw lift mbind mret M_bind
       M_ret get_client get_db put_db modify_client client db fst].
  destruct (_ || negb (str_truthy (amountToDonate c))); cbv beta iota; [done|].
  destruct (parseInt (amountToDonate c)) as [amount|]; cbv beta iota; [|done].
  destruct (bool_decide (amount ≤ 0)); cbv beta iota; [done|].
  destruct (path_segment _) as [e|institution]; cbv beta iota; [done|].
  by destruct (profiles d !! institution).
Qed.

(** *** Invariants of the runs *)

(** X1: the ledger of every user is append-only: whatever the clients
    run, an entry once written is never removed, changed or reordered. *)
Theorem ledger_is_append_only d d' u :
  reaches JSON_parse JSON_stringify d d' →
  ledger u d `prefix_of` ledger u d'.
Proof. intros H%reaches_writes. by apply writes_ledger. Qed.

(** X2: no run of the dashboards or of the role selection debits
    anybody or removes a profile: every balance in the later store is at
    least what it was. *)
Theorem balances_never_decrease d d' u :
  reaches JSON_parse JSON_stringify d d' →
  balanceOf u d ≤ balanceOf u d'
  ∧ (is_Some (profiles d !! u) → is_Some (profiles d' !! u)).
Proof. intros H%reaches_writes. by apply writes_balance. Qed.

(** X3: the balances agree with the ledgers as long as the runs do
    not overlap.  Starting from balances that are not negative, and
    with the later balance of the user within the integers that doubles
    hold exactly, the balance of a user grows, over any number of runs
    of the dashboards and of the role selection made one after the
    other, by exactly the sum of the amounts appended to that user's
    ledger.  (An approval resets a balance and is not among these runs,
    X27.)  Two donations to one institution that overlap break the
    agreement: when both have read the balance before either writes,
    both report success and both are in the ledger, and the balance has
    grown by the second amount only. *)
Theorem balances_reconcile_unless_runs_overlap :
  (∀ d d' u,
     map_Forall (λ _ p, 0 ≤ Profile.balance p) (profiles d) →
     safe (balanceOf u d') →
     reaches JSON_parse JSON_stringify d d' →
     balanceOf u d' - balanceOf u d = ledgerTotal u d' - ledgerTotal u d)
  ∧ (∀ c1 c2 d institution p a1 a2,
       dbRef c1 = true → userId c1 ≠ "" →
       dbRef c2 = true → userId c2 ≠ "" →
       selectedInstitutionForDonation c1 = institution →
       selectedInstitutionForDonation c2 = institution → institution ≠ "" →
       parseInt (amountToDonate c1) = Some a1 → 0 < a1 →
       parseInt (amountToDonate c2) = Some a2 → 0 < a2 →
       profiles d !! institution = Some p →
       0 ≤ Profile.balance p →
       safe (Profile.balance p + a1 + a2) →
       let '(k1, k2, d') := racingDonations c1 c2 d in
       message k1
         = Some (Donated a1 (institutionName institution (approvedInstitutions c1)))
       ∧ message k2
         = Some (Donated a2 (institutionName institution (approvedInstitutions c2)))
       ∧ ledger institution d'
         = (ledger institution d
            ++ [donationTransaction c1 institution a1;
                donationTransaction c2 institution a2])%list
       ∧ ledgerTotal institution d' = ledgerTotal institution d + a1 + a2
       ∧ balanceOf institution d' = balanceOf institution d + a2).
Proof.
  split.
  - intros d d' u Hpos _ H%reaches_writes.
    by apply (writes_reconcile d d' H (balances_not_negative d Hpos) u).
  - intros c1 c2 d institution p a1 a2 Hdb1 Hu1 Hdb2 Hu2 Hi1 Hi2 Hne
      Hp1 Hpos1 Hp2 Hpos2 Hpr Hbal _.
    unfold racingDonations.
    rewrite (donation_read_outcome c1 _ institution a1) by done.
    rewrite (donation_read_outcome c2 _ institution a2) by done.
    cbn [db client]. rewrite Hpr. cbn [mbind option_bind].
    rewrite (donation_write_outcome c1 _ institution a1 _ p) by done.
    cbn [db client].
    rewrite (donation_write_outcome c2 _ institution a2 _
               (Profile.set_coins (addCoins (Profile.coins p) a1) p))
      by (cbn [db]; store_fields; by rewrite lookup_insert_eq).
    cbn [message setMessage db client]. split; [done|]. split; [done|].
    assert (Hl : ledger institution
                   (set_transactions
                      (<[institution := (default [] (transactions d !! institution)
                                         ++ [donationTransaction c1 institution a1])%list]>
                         (transactions d))
                      (set_profiles
                         (<[institution := Profile.set_coins
                                             (addCoins (Profile.coins p) a1) p]>
                            (profiles d)) d))
                 = (ledger institution d
                    ++ [donationTransaction c1 institution a1])%list).
    { unfold ledger. store_fields. by rewrite lookup_insert_eq. }
    unfold ledgerTotal, balanceOf. unfold ledger in *.
    revert Hl. store_fields. rewrite !lookup_insert_eq. intros Hl.
    cbn [default from_option id fmap option_fmap option_map].
    rewrite Hpr. cbn [default from_option id fmap option_fmap option_map].
    rewrite <- !app_assoc. cbn [app].
    split; [done|]. split.
    + rewrite !foldr_app. cbn [foldr Transaction.amount donationTransaction].
      generalize (default [] (transactions d !! institution)).
      intros l. induction l as [|tx l IH]; cbn [foldr]; lia.
    + unfold Profile.balance, Profile.set_coins. cbn [Profile.coins].
      rewrite (addCoins_sum p a2) by done. done.
Qed.


(** X5: an order that is not [in_delivery] is never modified again:
    the orders the application creates, [pending_salesperson_pickup] by
    [handleBuyNow] and [purchased_by_doctor] by [handlePurchaseProduct],
    keep every field they were created with. *)
Theorem order_not_in_delivery_is_frozen d d' k o :
  userOrders d !! k = Some o → Order.status o ≠ in_delivery →
  reaches JSON_parse JSON_stringify d d' →
  userOrders d' !! k = Some o.
Proof. intros Hk Hst H%reaches_writes. by eapply writes_order_frozen. Qed.

(** X6: claims write [allOrders] and confirmations read the orders of
    the customer, so no order of a customer ever enters [in_delivery]:
    from a store without such an order, in every later store the
    salesperson's list of orders is empty and a confirmation neither
    writes an order nor reports a delivery confirmed. *)
Theorem deliveries_never_start d0 d c uid :
  undelivered d0 →
  reaches JSON_parse JSON_stringify d0 d →
  let s' := run (handleConfirmTransferAndPayment JSON_parse) (mkSys c d) in
  undelivered d
  ∧ salespersonOrdersSnapshot uid d = []
  ∧ userOrders (db s') = userOrders d
  ∧ message (client s') ≠ Some (ConfirmedAndPaid order).
Proof.
  intros Hu Hr%reaches_writes s'.
  pose proof (writes_undelivered d0 d Hr Hu) as Hd.
  split; [done|]. split; [by apply no_order_in_delivery_listed|].
  by apply confirm_of_undelivered.
Qed.

(** X7: an appointment that has a salesperson and is not waiting for
    its confirmation, as a confirmation leaves it, is never paid for
    again: it stays so in every later store, also when an acceptance
    writes its status again, and no ledger receives another payment
    that names it. *)
Theorem settled_appointment_is_never_paid_again k d d' u :
  settled k d →
  reaches JSON_parse JSON_stringify d d' →
  settled k d' ∧ checkupPayments k u d' = checkupPayments k u d.
Proof.
  intros Hs Hr%reaches_writes.
  destruct (writes_settled k d d' Hr Hs) as [? H]. by split.
Qed.

(** *** Refusals *)

(** X8: a client without the store handle or without a user id writes
    nothing, whatever it runs: the two QR handlers and the donation
    refuse with their first message, the role handlers with theirs, and
    the acceptance, the order and the checkup request return without a
    word. *)
Theorem signed_out_client_writes_nothing c d offerId productId doctorId doctorName
    newId form selected userRole role :
  dbRef c = false ∨ userId c = "" →
  run (handleConfirmTransferAndPayment JSON_parse) (mkSys c d)
    = rejected EnterQrContent c d
  ∧ run (handleTakeOrderAppointment JSON_parse) (mkSys c d)
    = rejected EnterQrContent c d
  ∧ run handleDonateCoins (mkSys c d) = rejected SelectInstitutionAndAmount c d
  ∧ run (handleAcceptOffer JSON_stringify offerId) (mkSys c d) = mkSys c d
  ∧ handleBuyNow productId newId (mkSys c d) = (mkSys c d, Val None)
  ∧ handleRequestCheckup doctorId doctorName newId form (mkSys c d)
    = (mkSys c d, Val (None, form))
  ∧ handlePurchaseProduct selected newId (mkSys c d)
    = (mkSys c d, Val (Some SelectProductToPurchase, selected))
  ∧ handleRoleSwitch userRole role (mkSys c d)
    = (mkSys c d, Val (Some NotAuthenticated, userRole))
  ∧ handleSelectRole userRole role (mkSys c d)
    = (mkSys c d, Val (Some NotAuthenticated, userRole)).
Proof.
  intros H.
  assert (Hg : negb (dbRef c) || negb (str_truthy (userId c)) = true).
  { destruct H as [-> | ->]; [done|]. by destruct (dbRef c). }
  assert (Hg' : negb (str_truthy (userId c)) || negb (dbRef c) = true).
  { by rewrite orb_comm. }
  munfold.
  cbv [handleBuyNow handleRequestCheckup handlePurchaseProduct
       handleRoleSwitch handleSelectRole mbind mret M_bind M_ret get_client
       client].
  rewrite Hg, Hg'. cbn [orb]. by destruct c.
Qed.

(** X9: a QR content that [JSON.parse] rejects, or that parses to
    [null], stops the confirmation and the claim in their [catch]
    block: the failure is displayed, it counts as a malformed token,
    and the store is unchanged. *)
Theorem unreadable_qr_content_rejected c d :
  dbRef c = true → userId c ≠ "" → qrCodeInput c ≠ "" →
  JSON_parse (qrCodeInput c) = None ∨ JSON_parse (qrCodeInput c) = Some JNull →
  let e := match JSON_parse (qrCodeInput c) with
           | Some _ => TypeError
           | None => SyntaxError
           end in
  run (handleConfirmTransferAndPayment JSON_parse) (mkSys c d)
    = rejected (FailedToConfirm e) c d
  ∧ run (handleTakeOrderAppointment JSON_parse) (mkSys c d)
    = rejected (FailedToTake e) c d
  ∧ exn_kind e = Some MalformedToken.
Proof.
  intros Hdb Hu Hq Hp e. subst e. munfold. rewrite Hdb. unfold str_truthy.
  guards. cbn [negb orb]. by destruct Hp as [-> | ->].
Qed.

(** X10: a token that parses but carries neither an [orderId] nor a
    [patientOfferId] is refused by the confirmation and by the claim as
    invalid QR content, before any store call. *)
Theorem token_without_record_id_rejected c d orderId patientOfferId salespersonId :
  presents JSON_parse c orderId patientOfferId salespersonId →
  truthy orderId = false → truthy patientOfferId = false →
  run (handleConfirmTransferAndPayment JSON_parse) (mkSys c d)
    = rejected InvalidQrContent c d
  ∧ run (handleTakeOrderAppointment JSON_parse) (mkSys c d)
    = rejected InvalidQrContent c d.
Proof.
  intros Hreq Hv Hw. start_qr Hreq. by rewrite Hv, Hw.
Qed.

Lemma confirm_validations c d type sp r data :
  confirm_resolves JSON_parse c type sp r →
  lookupDoc r d = Some data →
  ownedBy (userId c) data && confirmable data
    && strict_eq_field (data_salespersonId data) sp = false →
  run (handleConfirmTransferAndPayment JSON_parse) (mkSys c d)
    = rejected (if negb (ownedBy (userId c) data) then notForAccount type
                else if negb (confirmable data) then notConfirmable type
                else QrSalespersonMismatch) c d.
Proof.
  intros (v & w & Hreq & Hres) Hl Hno. start_qr Hreq. destruct type.
  - destruct Hres as (oid & -> & Hne & ->).
    cbn [truthy path_segment]. guards. cbn [negb].
    cbn [lookupDoc] in Hl. rewrite Hl.
    apply fmap_Some in Hl as (o & Hl & ->). data_fields.
    cbn [ownedBy confirmable data_salespersonId] in *.
    destruct (bool_decide (Order.customerId o = _)); cbn [negb]; [|done].
    destruct (bool_decide (Order.status o = _)); cbn [negb]; [|done].
    cbn [andb] in Hno. by rewrite Hno.
  - destruct Hres as (-> & pid & -> & Hne & ->).
    cbn [truthy path_segment]. guards. cbn [negb].
    cbn [lookupDoc] in Hl. rewrite Hl.
    apply fmap_Some in Hl as (a & Hl & ->). data_fields.
    cbn [ownedBy confirmable data_salespersonId] in *.
    destruct (bool_decide (Appointment.patientId a = _)); cbn [negb]; [|done].
    destruct (bool_decide (Appointment.status a = _)); cbn [negb]; [|done].
    cbn [andb] in Hno. by rewrite Hno.
Qed.

(** X11: the confirmation validates in a fixed order and writes
    nothing when a validation fails: first the owner (refusal
    [Unauthorized]), then the status ([InvalidState]), then the
    salesperson named by the token against the one on the record
    ([Unauthorized]). *)
Theorem confirmation_refusals c d type sp r data :
  confirm_resolves JSON_parse c type sp r →
  lookupDoc r d = Some data →
  ownedBy (userId c) data && confirmable data
    && strict_eq_field (data_salespersonId data) sp = false →
  run (handleConfirmTransferAndPayment JSON_parse) (mkSys c d)
    = rejected (if negb (ownedBy (userId c) data) then notForAccount type
                else if negb (confirmable data) then notConfirmable type
                else QrSalespersonMismatch) c d.
Proof. apply confirm_validations. Qed.

Lemma confirm_missing_record c d type sp r :
  confirm_resolves JSON_parse c type sp r →
  lookupDoc r d = None →
  run (handleConfirmTransferAndPayment JSON_parse) (mkSys c d)
    = rejected RecordNotFound c d.
Proof.
  intros (v & w & Hreq & Hres) Hl. start_qr Hreq. destruct type.
  - destruct Hres as (oid & -> & Hne & ->).
    cbn [truthy path_segment]. guards. cbn [negb].
    cbn [lookupDoc] in Hl. by rewrite Hl.
  - destruct Hres as (-> & pid & -> & Hne & ->).
    cbn [truthy path_segment]. guards. cbn [negb].
    cbn [lookupDoc] in Hl. by rewrite Hl.
Qed.

(** X12: for a token whose id the store takes as a document id (no
    slash, so that [doc] takes it as one path segment), the confirmation
    looks for an order under the path of the client that confirms, and
    for an appointment in the public collection; when there is no
    document there it refuses with the message of a record that is not
    found and writes nothing, also when an order of that id lies under
    another customer's path.  (Other ids are outside this property:
    [doc] splits an id with a slash into segments.) *)
Theorem confirmation_of_missing_record c d type sp r :
  confirm_resolves JSON_parse c type sp r →
  document_id (ref_id r) = true →
  lookupDoc r d = None →
  run (handleConfirmTransferAndPayment JSON_parse) (mkSys c d)
    = rejected RecordNotFound c d.
Proof. intros Hres _. by apply (confirm_missing_record c d type sp r). Qed.

(** C2 (amended): the identity checks as the code makes them.  A
    confirmation by a client that does not own the record the token
    names (by a document id) changes nothing and is refused,
    whatever salesperson the token names: with [Unauthorized] when the
    reference holds a record, which is the case of an appointment of
    another patient, and with [NotFound] when it holds none, which is
    the case of an order of another customer, orders being looked for
    under the path of the client that confirms.  The accept edge is
    guarded by the dashboard, not by a refusal: the offers the doctor's
    dashboard lists for acceptance are pending offers of the store that
    name the doctor who is signed in. *)
Theorem confirmation_by_non_owner_refused c d type sp r :
  confirm_resolves JSON_parse c type sp r →
  document_id (ref_id r) = true →
  (∀ data, lookupDoc r d = Some data → ownedBy (userId c) data = false) →
  let s' := run (handleConfirmTransferAndPayment JSON_parse) (mkSys c d) in
  let refusal := match lookupDoc r d with
                 | Some _ => notForAccount type
                 | None => RecordNotFound
                 end in
  s' = rejected refusal c d
  ∧ error_kind refusal = Some (match lookupDoc r d with
                               | Some _ => Unauthorized
                               | None => NotFound
                               end)
  ∧ ∀ uid k a,
      (k, a) ∈ pendingOffers uid (doctorOffersSnapshot uid d) →
      patientOffers d !! k = Some a
      ∧ Appointment.status a = pending
      ∧ Appointment.doctorId a = uid.
Proof.
  intros Hres _ Hown s' refusal. subst s' refusal.
  split; [|split].
  - destruct (lookupDoc r d) as [data|] eqn:Hl.
    + rewrite (confirm_validations c d type sp r data Hres Hl)
        by (by rewrite (Hown data)).
      by rewrite (Hown data).
    + by apply (confirm_missing_record c d type sp r).
  - destruct (lookupDoc r d); [by destruct type|done].
  - intros uid k a Hin.
    apply list_elem_of_filter in Hin as [[Hst Hdoc] Hin].
    apply list_elem_of_filter in Hin as [_ Hin].
    by apply elem_of_map_to_list in Hin.
Qed.

(** *** Donations that fail or are not checked *)

(** X14: a donation of a positive amount to an institution whose
    balance is not negative, with the new balance within the integers
    that doubles hold exactly, succeeds whatever the donor owns: the
    donor's balance is neither read nor debited.  The institution's
    balance grows by the amount, one [donation] transaction is appended
    to its ledger, the form is empty afterwards, and no other balance,
    ledger or record changes. *)
Theorem donation_ignores_donor_balance c d institution amount p :
  dbRef c = true → userId c ≠ "" →
  selectedInstitutionForDonation c = institution → institution ≠ "" →
  parseInt (amountToDonate c) = Some amount → 0 < amount →
  profiles d !! institution = Some p →
  0 ≤ Profile.balance p →
  safe (Profile.balance p + amount) →
  let s' := run handleDonateCoins (mkSys c d) in
  balanceOf institution (db s') = balanceOf institution d + amount
  ∧ ledger institution (db s')
    = (ledger institution d ++ [donationTransaction c institution amount])%list
  ∧ (∀ u, u ≠ institution →
       profiles (db s') !! u = profiles d !! u
       ∧ ledger u (db s') = ledger u d)
  ∧ amountToDonate (client s') = ""
  ∧ selectedInstitutionForDonation (client s') = ""
  ∧ userOrders (db s') = userOrders d
  ∧ allOrders (db s') = allOrders d
  ∧ patientOffers (db s') = patientOffers d.
Proof.
  intros Hdb Hu Hi Hne Hp Hpos Hpr Hbal _ s'. subst s'.
  rewrite (donate_outcome c d institution amount p) by done.
  cbn [client db]. fold (ledger institution d).
  fold (credited institution p amount
          (donationTransaction c institution amount) d).
  rewrite balanceOf_credited, ledger_credited.
  destruct (decide (institution = institution)); [|done].
  rewrite (balanceOf_lookup institution p d), addCoins_sum by done.
  split; [done|]. split; [done|]. split; [|done].
  intros u Hne'. rewrite ledger_credited.
  destruct (decide (u = institution)); [done|].
  unfold credited. store_fields. by rewrite lookup_insert_ne.
Qed.

(** X15: a donation to an institution that has no profile fails in the
    [catch] block with the store's rejection: the message is the failure
    with the store's [not-found], nothing is credited and no transaction
    is appended.  The dashboard, mounted anew by the message, shows an
    empty form. *)
Theorem donation_to_unknown_institution_fails c d amount :
  dbRef c = true → userId c ≠ "" →
  selectedInstitutionForDonation c ≠ "" →
  parseInt (amountToDonate c) = Some amount → 0 < amount →
  profiles d !! selectedInstitutionForDonation c = None →
  run handleDonateCoins (mkSys c d)
    = rejected (FailedToDonate (FirestoreError "not-found")) c d.
Proof.
  intros Hdb Hu Hne Hp Hpos Hpr.
  pose proof (parseInt_nonempty _ _ Hp) as Ha.
  munfold. rewrite Hdb, Hp. unfold str_truthy. guards. cbn [negb orb].
  guards. cbn [path_segment]. guards. by rewrite Hpr.
Qed.

(** *** Claims and acceptances through the dashboards *)

Lemma claim_appointment c d v pid sp a :
  presents JSON_parse c v (JStr pid) sp → truthy v = false → pid ≠ "" →
  patientOffers d !! pid = Some a →
  Appointment.status a = accepted →
  field_truthy (Appointment.salespersonId a) = false →
  run (handleTakeOrderAppointment JSON_parse) (mkSys c d)
  = mkSys (setQrCodeInput ""
             (setMessage (AssignedToYou appointment) MessageType.success c))
      (set_patientOffers
         (<[pid := assignAppointment (userId c) a]> (patientOffers d)) d).
Proof.
  intros Hreq Hv Hpid Hl Hst Hsp.
  rewrite (claim_outcome c d appointment (PatientOfferRef pid)
             (AppointmentData a)).
  - cbn [claimable data_salespersonId mergeDoc]. rewrite Hst, Hsp, Hl.
    guards. done.
  - exists v, (JStr pid), sp. split; [done|]. split; [done|]. by exists pid.
  - cbn [lookupDoc]. by rewrite Hl.
Qed.

Lemma assigned_offer_listed uid k a d :
  patientOffers d !! k = Some a →
  Appointment.salespersonId a = Some uid →
  Appointment.status a = assigned_to_salesperson →
  OfferItem k a
    ∈ allAssignedItems uid (salespersonOrdersSnapshot uid d)
        (salespersonOffersSnapshot uid d).
Proof.
  intros Hl Hsp Hst. apply elem_of_app. right.
  apply (list_elem_of_fmap_2 (λ ka, OfferItem ka.1 ka.2) _ (k, a)).
  apply list_elem_of_filter. split; [done|].
  apply list_elem_of_filter. split; [done|].
  by apply elem_of_map_to_list.
Qed.

(** X16: a claim of an appointment that is [accepted] and has no
    salesperson succeeds: the appointment is [assigned_to_salesperson]
    with the client as its salesperson, the input is cleared, and the
    appointment is in the list of assigned items the salesperson's
    dashboard builds from its listeners. *)
Theorem claimed_appointment_is_listed c d v pid sp a :
  presents JSON_parse c v (JStr pid) sp → truthy v = false → pid ≠ "" →
  patientOffers d !! pid = Some a →
  Appointment.status a = accepted →
  field_truthy (Appointment.salespersonId a) = false →
  let s' := run (handleTakeOrderAppointment JSON_parse) (mkSys c d) in
  s' = mkSys (setQrCodeInput ""
                (setMessage (AssignedToYou appointment) MessageType.success c))
         (set_patientOffers
            (<[pid := assignAppointment (userId c) a]> (patientOffers d)) d)
  ∧ OfferItem pid (assignAppointment (userId c) a)
      ∈ allAssignedItems (userId c)
          (salespersonOrdersSnapshot (userId c) (db s'))
          (salespersonOffersSnapshot (userId c) (db s')).
Proof.
  intros Hreq Hv Hpid Hl Hst Hsp s'. subst s'.
  rewrite (claim_appointment c d v pid sp a) by done.
  split; [done|]. apply assigned_offer_listed; [|done..].
  cbn [db]. store_fields. by rewrite lookup_insert_eq.
Qed.

(** X17: an acceptance of an offer that does not exist fails in the
    [catch] block: the store is unchanged and no QR code is shown. *)
Theorem accept_of_missing_offer_fails c d offerId :
  dbRef c = true → userId c ≠ "" →
  patientOffers d !! offerId = None →
  run (handleAcceptOffer JSON_stringify offerId) (mkSys c d)
    = rejected (FailedToAccept
                  (FirestoreError (if bool_decide (offerId = "")
                                   then "invalid-argument" else "not-found")))
        c d.
Proof.
  intros Hdb Hu Hl. munfold. rewrite Hdb. unfold str_truthy. guards.
  cbn [negb orb path_segment]. case_bool_decide; [done|]. by rewrite Hl.
Qed.

(** X18: what the doctor's dashboard lets the doctor accept.  An offer
    in the list of pending offers, built from the doctor's listener, is
    [pending] and names the doctor.  Accepting it shows the message of
    the acceptance and no QR code: the dashboard is mounted anew by the
    message, with the modal closed and no token.  The next snapshot has
    the offer, [accepted], in the list of accepted appointments and no
    longer among the pending ones; the button of that list
    ([handleGenerateSalespersonQr]) then opens the modal with the token
    for the salesperson. *)
Theorem accept_then_show_token c d k a :
  dbRef c = true → userId c ≠ "" → k ≠ "" →
  (k, a) ∈ pendingOffers (userId c) (doctorOffersSnapshot (userId c) d) →
  let s' := run (handleAcceptOffer JSON_stringify k) (mkSys c d) in
  let snapshot := doctorOffersSnapshot (userId c) (db s') in
  let s'' := run (handleGenerateSalespersonQr JSON_stringify k) s' in
  Appointment.status a = pending
  ∧ Appointment.doctorId a = userId c
  ∧ message (client s') = Some OfferAccepted
  ∧ showQrModal (client s') = false
  ∧ currentQrContent (client s') = ""
  ∧ (k, acceptAppointment a) ∈ acceptedAppointments (userId c) snapshot
  ∧ (∀ a', (k, a') ∈ pendingOffers (userId c) snapshot → False)
  ∧ db s'' = db s'
  ∧ showQrModal (client s'') = true
  ∧ currentQrContent (client s'')
    = generateQRCodeContent JSON_stringify (salespersonQrData (userId c) k).
Proof.
  intros Hdb Hu Hk Hin s' snapshot s''. subst s'' snapshot s'.
  apply list_elem_of_filter in Hin as [[Hst Hdoc] Hin].
  apply list_elem_of_filter in Hin as [_ Hin].
  apply elem_of_map_to_list in Hin. cbn [fst snd] in *.
  rewrite (accept_outcome c d k a) by done. cbn [client db].
  split; [done|]. split; [done|]. split; [done|].
  split; [done|]. split; [done|].
  split; [|split; [|done]].
  - apply list_elem_of_filter. split; [done|].
    apply list_elem_of_filter. split; [by split; [|right]|].
    apply elem_of_map_to_list. store_fields. by rewrite lookup_insert_eq.
  - intros a' Hin'.
    apply list_elem_of_filter in Hin' as [[Hst' _] Hin'].
    apply list_elem_of_filter in Hin' as [_ Hin'].
    apply elem_of_map_to_list in Hin'. revert Hin'. store_fields.
    rewrite lookup_insert_eq. intros [= <-]. done.
Qed.

Lemma request_outcome c d doctorId doctorName newId form :
  dbRef c = true → userId c ≠ "" → reasonForCheckup form ≠ "" →
  handleRequestCheckup doctorId doctorName newId form (mkSys c d)
  = (mkSys c (set_patientOffers
                (<[newId := newOffer (userId c) doctorId doctorName
                              (reasonForCheckup form)]> (patientOffers d)) d),
     Val (Some (CheckupRequested doctorName), mkCheckupForm "" "")).
Proof.
  intros Hdb Hu Hr.
  cbv [handleRequestCheckup try_catch_with addPatientOffer mbind mret M_bind
       M_ret get_client get_db put_db client db].
  rewrite Hdb. unfold str_truthy. guards. by destruct c.
Qed.

(** X19: a checkup request with a reason creates one [pending]
    appointment that names the patient and the doctor, changes no other
    appointment, clears the form, and is in the list of pending offers
    of that doctor's dashboard. *)
Theorem checkup_request_reaches_doctor c d doctorId doctorName newId form :
  dbRef c = true → userId c ≠ "" → reasonForCheckup form ≠ "" →
  patientOffers d !! newId = None →
  let offer := newOffer (userId c) doctorId doctorName (reasonForCheckup form) in
  let r := handleRequestCheckup doctorId doctorName newId form (mkSys c d) in
  r.2 = Val (Some (CheckupRequested doctorName), mkCheckupForm "" "")
  ∧ db r.1 = set_patientOffers (<[newId := offer]> (patientOffers d)) d
  ∧ (newId, offer) ∈ pendingOffers doctorId (doctorOffersSnapshot doctorId (db r.1)).
Proof.
  intros Hdb Hu Hr Hfresh offer r. subst r offer.
  rewrite request_outcome by done. cbn [fst snd db].
  split; [done|]. split; [done|].
  apply list_elem_of_filter. split; [done|].
  apply list_elem_of_filter. split; [by split; [|left]|].
  apply elem_of_map_to_list. store_fields. by rewrite lookup_insert_eq.
Qed.

(** *** Orders *)

Lemma buy_outcome c d productId newId product :
  dbRef c = true → userId c ≠ "" →
  findProduct (Some productId) (products c) = Some product →
  handleBuyNow productId newId (mkSys c d)
    = (mkSys c (set_userOrders
                  (<[(userId c, newId) :=
                       newOrder (userId c) productId product
                         pending_salesperson_pickup]> (userOrders d)) d),
       Val (Some (OrderPlaced (Product.name product)))).
Proof.
  intros Hdb Hu Hf.
  cbv [handleBuyNow try_catch_with addOrder mbind mret M_bind M_ret
       get_client get_db put_db client db].
  rewrite Hdb, Hf. unfold str_truthy. guards. by destruct c.
Qed.

(** X20: an order placed with [handleBuyNow] is created
    [pending_salesperson_pickup] under the customer's path and stays
    exactly as created in every later store: no run assigns it a
    salesperson, delivers it or pays for it. *)
Theorem bought_order_is_stuck c d productId newId product d' :
  dbRef c = true → userId c ≠ "" →
  findProduct (Some productId) (products c) = Some product →
  userOrders d !! (userId c, newId) = None →
  let r := handleBuyNow productId newId (mkSys c d) in
  reaches JSON_parse JSON_stringify (db r.1) d' →
  r.2 = Val (Some (OrderPlaced (Product.name product)))
  ∧ userOrders d' !! (userId c, newId)
    = Some (newOrder (userId c) productId product pending_salesperson_pickup).
Proof.
  intros Hdb Hu Hf Hfresh r. subst r.
  rewrite (buy_outcome c d productId newId product) by done.
  cbn [fst snd db]. intros Hr%reaches_writes. split; [done|].
  eapply writes_order_frozen; [done| |done].
  store_fields. by rewrite lookup_insert_eq.
Qed.

Lemma purchase_outcome c d selected newId product :
  dbRef c = true → userId c ≠ "" → selected ≠ "" →
  findProduct (Some selected) (products c) = Some product →
  handlePurchaseProduct selected newId (mkSys c d)
  = (mkSys c (set_userOrders
                (<[(userId c, newId) :=
                     newOrder (userId c) selected product
                       purchased_by_doctor]> (userOrders d)) d),
     Val (Some (ProductPurchased (Product.name product)), "")).
Proof.
  intros Hdb Hu Hsel Hf.
  cbv [handlePurchaseProduct try_catch_with addOrder mbind mret M_bind M_ret
       get_client get_db put_db client db].
  rewrite Hdb, Hf. unfold str_truthy. guards. by destruct c.
Qed.

(** X21: a purchase by a doctor is final: [handlePurchaseProduct]
    creates one order [purchased_by_doctor] in the doctor's name under
    the doctor's path and clears the selection, and the order stays
    exactly as created in every later store. *)
Theorem doctor_purchase_is_final c d selected newId product d' :
  dbRef c = true → userId c ≠ "" → selected ≠ "" →
  findProduct (Some selected) (products c) = Some product →
  userOrders d !! (userId c, newId) = None →
  let r := handlePurchaseProduct selected newId (mkSys c d) in
  reaches JSON_parse JSON_stringify (db r.1) d' →
  r.2 = Val (Some (ProductPurchased (Product.name product)), "")
  ∧ userOrders d' !! (userId c, newId)
    = Some (newOrder (userId c) selected product purchased_by_doctor).
Proof.
  intros Hdb Hu Hsel Hf Hfresh r. subst r.
  rewrite (purchase_outcome c d selected newId product) by done.
  cbn [fst snd db]. intros Hr%reaches_writes. split; [done|].
  eapply writes_order_frozen; [done| |done].
  store_fields. by rewrite lookup_insert_eq.
Qed.

(** *** Tokens *)

Lemma confirm_with_appointment_token c d v w sp :
  presents JSON_parse c v w sp → truthy v = false →
  let s' := run (handleConfirmTransferAndPayment JSON_parse) (mkSys c d) in
  userOrders (db s') = userOrders d
  ∧ message (client s') ≠ Some (ConfirmedAndPaid order).
Proof.
  intros (Hdb & Hu & Hq & tok & Hp & H1 & H2 & H3) Hv s'.
  remember s' as s eqn:Hs. subst s'. hunfold_in Hs.
  rewrite Hp, H1, H2, H3, Hv in Hs.
  repeat split_hyp Hs.
  all: subst s; cbn [db client message setMessage setQrCodeInput]; tidy_run;
    store_fields.
  all: split; [done|discriminate].
Qed.

(** X22: the orders of the application have no [orderId] field, and
    for an item without it [handleGenerateCustomerQr] mints a token
    that names the item as an appointment.  A customer who confirms
    with the token minted for such an order is answered about an
    appointment: no order is written and no delivery is confirmed. *)
Theorem order_item_token_names_an_appointment c d uid k o :
  field_truthy (Order.orderId o) = false →
  let tok := customerQrData uid (OrderItem k o) in
  transports JSON_parse JSON_stringify tok →
  dbRef c = true → userId c ≠ "" →
  qrCodeInput c = generateQRCodeContent JSON_stringify tok →
  let s' := run (handleConfirmTransferAndPayment JSON_parse) (mkSys c d) in
  tok = JObj [("patientOfferId", JStr (default k (Order.id o)));
              ("salespersonId", JStr uid)]
  ∧ userOrders (db s') = userOrders d
  ∧ message (client s') ≠ Some (ConfirmedAndPaid order).
Proof.
  intros Ho tok Ht Hdb Hu Hq s'. subst s'.
  assert (Htok : tok = JObj [("patientOfferId", JStr (default k (Order.id o)));
                             ("salespersonId", JStr uid)]).
  { subst tok. unfold customerQrData. cbn [item_orderId item_id]. by rewrite Ho. }
  split; [done|].
  destruct Ht as (text & Hs & Hne & Hp).
  apply (confirm_with_appointment_token c d JUndefined
           (JStr (default k (Order.id o))) (JStr uid)); [|done].
  unfold generateQRCodeContent in Hq. rewrite Hs in Hq.
  split; [done|]. split; [done|]. split; [by rewrite Hq|].
  exists tok. rewrite Hq, Htok in *. by split.
Qed.

(** *** From the request to the confirmation *)

Lemma scanned c tok v w sp :
  transports JSON_parse JSON_stringify tok →
  dbRef c = true → userId c ≠ "" →
  get_prop tok "orderId" = inr v →
  get_prop tok "patientOfferId" = inr w →
  get_prop tok "salespersonId" = inr sp →
  presents JSON_parse
    (setQrCodeInput (generateQRCodeContent JSON_stringify tok) c) v w sp.
Proof.
  intros (text & Hs & Hne & Hp) Hdb Hu H1 H2 H3.
  unfold presents, generateQRCodeContent. rewrite Hs.
  cbn [dbRef userId qrCodeInput setQrCodeInput].
  repeat (split; [done|]). by exists tok.
Qed.

(** X24: the checkup edge end to end.  A patient requests a checkup
    from the doctor whose account has the id the request names; the
    offer is in that doctor's list of pending offers and the doctor
    accepts it, then opens the QR code from the list of accepted
    appointments; the salesperson enters that token and claims the
    appointment, mints the token for the patient from the list of
    assigned items, and the patient confirms with it.  The confirmation
    is refused by the store, whose update carries an [undefined] field:
    the appointment stays [assigned_to_salesperson], and no balance and
    no ledger has changed since the request.  The tokens travel as the
    text [JSON.stringify] gives and [JSON.parse] reads back. *)
Theorem checkup_journey_stops_at_confirmation cp cd cs d doctorName newId form :
  dbRef cp = true → userId cp ≠ "" →
  dbRef cd = true → userId cd ≠ "" →
  dbRef cs = true → userId cs ≠ "" →
  reasonForCheckup form ≠ "" →
  newId ≠ "" → patientOffers d !! newId = None →
  let offer := newOffer (userId cp) (userId cd) doctorName (reasonForCheckup form) in
  let assigned := assignAppointment (userId cs) (acceptAppointment offer) in
  transports JSON_parse JSON_stringify (salespersonQrData (userId cd) newId) →
  transports JSON_parse JSON_stringify
    (customerQrData (userId cs) (OfferItem newId assigned)) →
  let s1 := exec (handleRequestCheckup (userId cd) doctorName newId form)
                 (mkSys cp d) in
  let s2 := run (handleAcceptOffer JSON_stringify newId) (mkSys cd (db s1)) in
  let s2' := run (handleGenerateSalespersonQr JSON_stringify newId) s2 in
  let s3 := run (handleTakeOrderAppointment JSON_parse)
                (mkSys (setQrCodeInput (currentQrContent (client s2')) cs)
                       (db s2')) in
  let s4 := run (handleGenerateCustomerQr JSON_stringify
                   (OfferItem newId assigned)) s3 in
  let s5 := run (handleConfirmTransferAndPayment JSON_parse)
                (mkSys (setQrCodeInput (currentQrContent (client s4)) cp)
                       (db s4)) in
  (newId, offer)
    ∈ pendingOffers (userId cd) (doctorOffersSnapshot (userId cd) (db s1))
  ∧ (newId, acceptAppointment offer)
    ∈ acceptedAppointments (userId cd)
        (doctorOffersSnapshot (userId cd) (db s2))
  ∧ OfferItem newId assigned
    ∈ allAssignedItems (userId cs)
        (salespersonOrdersSnapshot (userId cs) (db s3))
        (salespersonOffersSnapshot (userId cs) (db s3))
  ∧ message (client s5)
    = Some (FailedToConfirm (FirestoreError "invalid-argument"))
  ∧ patientOffers (db s5) !! newId = Some assigned
  ∧ profiles (db s5) = profiles d
  ∧ transactions (db s5) = transactions d.
Proof.
  intros Hp1 Hp2 Hd1 Hd2 Hs1 Hs2 Hr Hn Hfresh offer assigned HtA HtB
    s1 s2 s2' s3 s4 s5.
  (* the request *)
  assert (E1 : s1 = mkSys cp (set_patientOffers
                                (<[newId := offer]> (patientOffers d)) d)).
  { subst s1. unfold exec. by rewrite request_outcome. }
  (* the acceptance *)
  assert (E2 : s2 = mkSys
            (setMessage OfferAccepted MessageType.success cd)
            (set_patientOffers
               (<[newId := acceptAppointment offer]> (patientOffers (db s1)))
               (db s1))).
  { subst s2. apply accept_outcome; try done.
    rewrite E1. cbn [db]. store_fields. by rewrite lookup_insert_eq. }
  (* the token for the salesperson *)
  assert (E2' : currentQrContent (client s2')
                = generateQRCodeContent JSON_stringify
                    (salespersonQrData (userId cd) newId)
                ∧ db s2' = db s2).
  { subst s2'. rewrite E2. by destruct cd. }
  destruct E2' as [E2' E2''].
  (* the claim *)
  assert (E3 : s3 = mkSys
            (setQrCodeInput ""
               (setMessage (AssignedToYou appointment) MessageType.success
                  (setQrCodeInput (currentQrContent (client s2')) cs)))
            (set_patientOffers
               (<[newId := assigned]> (patientOffers (db s2))) (db s2))).
  { subst s3. rewrite E2', E2''.
    rewrite (claim_appointment _ _ JUndefined newId JUndefined
               (acceptAppointment offer)); try done.
    - by apply scanned.
    - rewrite E2. cbn [db]. store_fields. by rewrite lookup_insert_eq. }
  (* the token for the patient *)
  assert (E4 : currentQrContent (client s4)
               = generateQRCodeContent JSON_stringify
                   (customerQrData (userId cs) (OfferItem newId assigned))
               ∧ db s4 = db s3).
  { subst s4. rewrite E3. by destruct cs. }
  destruct E4 as [E4 E4'].
  assert (Hl3 : patientOffers (db s3) !! newId = Some assigned).
  { rewrite E3. cbn [db]. store_fields. by rewrite lookup_insert_eq. }
  assert (Hp3 : profiles (db s3) = profiles d ∧ transactions (db s3) = transactions d).
  { by rewrite E3, E2, E1. }
  destruct Hp3 as [Hp3 Ht3].
  split.
  { rewrite E1. cbn [db].
    apply list_elem_of_filter. split; [done|].
    apply list_elem_of_filter. split; [by split; [|left]|].
    apply elem_of_map_to_list. store_fields. by rewrite lookup_insert_eq. }
  split.
  { rewrite E2. cbn [db].
    apply list_elem_of_filter. split; [done|].
    apply list_elem_of_filter. split; [by split; [|right]|].
    apply elem_of_map_to_list. store_fields. by rewrite lookup_insert_eq. }
  split.
  { apply assigned_offer_listed; done. }
  (* the confirmation *)
  subst s5. rewrite E4, E4'.
  rewrite (confirm_appointment_refused _ (db s3) JUndefined newId (userId cs)
             assigned); try done.
  apply scanned; try done.
Qed.



(** *** Approvals *)

Lemma approved_institution_name b k r :
  institutionRequests b !! k = Some r →
  Request.status r = request_approved →
  institutionName k (approvedInstitutionsSnapshot b) = Some (Request.name r).
Proof.
  intros Hl Hst. unfold institutionName.
  assert (Hin : Institution.mk k (Request.name r) ∈ approvedInstitutionsSnapshot b).
  { apply (list_elem_of_fmap_2
             (λ kr, Institution.mk kr.1 (Request.name kr.2)) _ (k, r)).
    apply list_elem_of_filter. split; [done|]. by apply elem_of_map_to_list. }
  destruct (find _ _) as [inst|] eqn:E.
  - apply find_some in E as [Hin' Hid]. apply bool_decide_eq_true in Hid.
    apply list_elem_of_In, list_elem_of_fmap in Hin' as ([k' r'] & -> & Hkr).
    apply list_elem_of_filter in Hkr as [_ Hkr].
    apply elem_of_map_to_list in Hkr. cbn in Hid. subst k'.
    cbn. congruence.
  - apply list_elem_of_In in Hin.
    pose proof (find_none _ _ E _ Hin) as Hno. cbn in Hno.
    by apply bool_decide_eq_false in Hno.
Qed.

(** X26: an institution from its request to its first donation.  The
    request is listed as pending for the administrator; its approval
    creates the profile, with no coins, under the id of the request;
    the donation form, which lists the approved requests, names that
    id, and a donation to it is credited to the new profile and
    recorded in its ledger under the institution's name. *)
Theorem institution_onboarding b name newId c amount :
  institutionRequests b !! newId = None → newId ≠ "" →
  dbRef c = true → userId c ≠ "" →
  selectedInstitutionForDonation c = newId →
  parseInt (amountToDonate c) = Some amount → 0 < amount →
  let b1 := (handleSubmitInstitutionRequest true name newId b).1 in
  let b2 := (handleApproveInstitution true newId name b1).1 in
  approvedInstitutions c = approvedInstitutionsSnapshot b2 →
  let s' := run handleDonateCoins (mkSys c (store b2)) in
  (newId, newRequest name) ∈ institutionRequestsSnapshot b1
  ∧ Institution.mk newId name ∈ approvedInstitutionsSnapshot b2
  ∧ profiles (store b2) !! newId
    = Some (Profile.mk "institution" name (Some 0) (Some true))
  ∧ message (client s') = Some (Donated amount (Some name))
  ∧ balanceOf newId (db s') = amount
  ∧ ledger newId (db s')
    = (ledger newId (store b) ++ [donationTransaction c newId amount])%list.
Proof.
  intros Hfresh Hne Hdb Hu Hsel Hp Hpos b1 b2 Hlist s'.
  assert (E1 : institutionRequests b1 !! newId = Some (newRequest name)).
  { subst b1. cbn. by rewrite lookup_insert_eq. }
  assert (E2 : b2 = mkBackoffice (salespersonRequests b1)
                      (<[newId := approveRequest None (newRequest name)]>
                         (institutionRequests b1))
                      (set_profiles
                         (<[newId := Profile.mk "institution" name (Some 0)
                                       (Some true)]> (profiles (store b1)))
                         (store b1))).
  { subst b2. unfold handleApproveInstitution. cbn [negb path_segment].
    guards. by rewrite E1. }
  assert (E3 : institutionRequests b2 !! newId
               = Some (approveRequest None (newRequest name))).
  { rewrite E2. cbn. by rewrite lookup_insert_eq. }
  split.
  { apply list_elem_of_filter. split; [done|]. by apply elem_of_map_to_list. }
  split.
  { apply (list_elem_of_fmap_2
             (λ kr, Institution.mk kr.1 (Request.name kr.2)) _
             (newId, approveRequest None (newRequest name))).
    apply list_elem_of_filter. split; [done|]. by apply elem_of_map_to_list. }
  assert (Hpr : profiles (store b2) !! newId
                = Some (Profile.mk "institution" name (Some 0) (Some true))).
  { rewrite E2. cbn [store]. store_fields. by rewrite lookup_insert_eq. }
  split; [done|]. subst s'.
  rewrite (donate_outcome c (store b2) newId amount _ Hdb Hu Hsel Hne Hp Hpos Hpr).
  cbn [client db message setSelectedInstitutionForDonation setAmountToDonate
       setMessage].
  rewrite Hlist, (approved_institution_name b2 newId _ E3) by done.
  split; [done|]. unfold balanceOf, ledger. store_fields.
  rewrite !lookup_insert_eq. cbn. split; [case_bool_decide; lia|].
  by rewrite E2.
Qed.

(** X27: the approval of a salesperson looks neither at the status of
    the request nor at a profile that exists under its id: it writes
    the request [approved] and the profile with [coins: 0].  Coins the
    profile held are gone while its ledger keeps their entries; the
    approvals are the runs that can lower a balance. *)
Theorem approval_resets_balance b managerId requestId name r :
  managerId ≠ "" → requestId ≠ "" →
  salespersonRequests b !! requestId = Some r →
  let b' := (handleApproveSalesperson true (Some managerId) requestId name b).1 in
  (handleApproveSalesperson true (Some managerId) requestId name b).2 = Some Approved
  ∧ Request.status <$> salespersonRequests b' !! requestId = Some request_approved
  ∧ balanceOf requestId (store b') = 0
  ∧ ledger requestId (store b') = ledger requestId (store b)
  ∧ ∀ u, u ≠ requestId → profiles (store b') !! u = profiles (store b) !! u.
Proof.
  intros Hm Hne Hl b'. subst b'. unfold handleApproveSalesperson.
  cbn [field_truthy path_segment]. unfold str_truthy. guards. cbn [negb].
  rewrite Hl. cbn [fst snd salespersonRequests store]. unfold balanceOf.
  store_fields. rewrite !lookup_insert_eq.
  repeat (split; [done|]). intros u Hu. by rewrite lookup_insert_ne.
Qed.

End Properties.

(** * The properties on the sample data *)

(** C1: [handleAcceptOffer] checks no status.  Called on the
    appointment [offer4], which is [completed], it reports success and
    writes [accepted] over [completed]. *)
Theorem accept_rewinds_completed_appointment :
  let s' := run (handleAcceptOffer sample_stringify "offer4")
                (mkSys (doctor "doctor1") sample_db) in
  Appointment.status <$> patientOffers sample_db !! "offer4" = Some completed ∧
  message (client s') = Some OfferAccepted ∧
  Appointment.status <$> patientOffers (db s') !! "offer4" = Some accepted.
Proof. repeat split; compute_it. Qed.

Lemma delivery_confirmation_refused_by_store_witness :
  let s' := run (handleConfirmTransferAndPayment sample_parse)
                (mkSys (customer1 (qr deliveryToken) "") sample_db) in
  message (client s')
    = Some (FailedToConfirm (FirestoreError "invalid-argument")) ∧
  messageType (client s') = Some MessageType.error ∧
  Order.status <$> userOrders (db s') !! ("customer1", "order1")
    = Some in_delivery ∧
  profiles (db s') = profiles sample_db ∧
  transactions (db s') = transactions sample_db.
Proof.
  apply (delivery_confirmation_refused_by_store sample_parse
           (customer1 (qr deliveryToken) "") sample_db JUndefined
           "order1" "sales1" order1 product1);
    first [presented | compute_it | apply list_elem_of_here].
Defined.

Lemma delivery_confirmation_without_reward_refused_witness :
  let c := mkClient true "customer1" [] [] (qr deliveryToken) "" "" "" false
             None None in
  let s' := run (handleConfirmTransferAndPayment sample_parse)
                (mkSys c sample_db) in
  message (client s')
    = Some (FailedToConfirm (FirestoreError "invalid-argument")) ∧
  messageType (client s') = Some MessageType.error ∧
  Order.status <$> userOrders (db s') !! ("customer1", "order1")
    = Some in_delivery ∧
  profiles (db s') = profiles sample_db ∧
  transactions (db s') = transactions sample_db.
Proof.
  apply (delivery_confirmation_without_reward_refused sample_parse
           (mkClient true "customer1" [] [] (qr deliveryToken) "" "" "" false
              None None)
           sample_db JUndefined "order1" "sales1" order1);
    first [presented | compute_it | left; compute_it].
Defined.

Lemma checkup_confirmation_refused_by_store_witness :
  let s' := run (handleConfirmTransferAndPayment sample_parse)
                (mkSys (customer1 (qr checkupToken) "") sample_db) in
  message (client s')
    = Some (FailedToConfirm (FirestoreError "invalid-argument")) ∧
  messageType (client s') = Some MessageType.error ∧
  Appointment.status <$> patientOffers (db s') !! "offer1"
    = Some assigned_to_salesperson ∧
  profiles (db s') = profiles sample_db ∧
  transactions (db s') = transactions sample_db.
Proof.
  apply (checkup_confirmation_refused_by_store sample_parse
           (customer1 (qr checkupToken) "") sample_db JUndefined
           "offer1" "sales1" (offer assigned_to_salesperson (Some "sales1")));
    first [presented | compute_it].
Defined.


(** C2, as stated, fails on an order.  [order1] is an order of
    [customer1], [customer2] presents its token, and the refusal is
    that of a record that is not found: the order is looked for under
    the path of [customer2]. *)
Lemma order_of_another_customer_not_found :
  let c := customer2 (qr deliveryToken) "" in
  let s' := run (handleConfirmTransferAndPayment sample_parse)
                (mkSys c sample_db) in
  Order.customerId <$> userOrders sample_db !! ("customer1", "order1")
    = Some "customer1"
  ∧ message (client s') = Some RecordNotFound
  ∧ error_kind RecordNotFound = Some NotFound
  ∧ db s' = sample_db
  ∧ ¬ ∃ m, message (client s') = Some m ∧ error_kind m = Some Unauthorized.
Proof.
  repeat split; try compute_it.
  intros (m & Hm & Hk). vm_compute in Hm. injection Hm as <-. discriminate Hk.
Qed.

Lemma confirmation_by_non_owner_refused_witness :
  let c := customer2 (qr checkupToken) "" in
  Appointment.patientId <$> patientOffers sample_db !! "offer1"
    = Some "customer1"
  ∧ run (handleConfirmTransferAndPayment sample_parse) (mkSys c sample_db)
    = rejected AppointmentNotForAccount c sample_db
  ∧ error_kind AppointmentNotForAccount = Some Unauthorized.
Proof.
  split; [compute_it|].
  destruct (confirmation_by_non_owner_refused sample_parse
              (customer2 (qr checkupToken) "") sample_db appointment
              (JStr "sales1") (PatientOfferRef "offer1"))
    as (H1 & H2 & _).
  - exists JUndefined, (JStr "offer1").
    split; [presented | split; [reflexivity | by exists "offer1"]].
  - compute_it.
  - intros data Hl. vm_compute in Hl. injection Hl as <-. compute_it.
  - split; [exact H1 | exact H2].
Defined.

(** C4, as stated, fails twice.  [offer1] has its [salespersonId] set,
    and the claim of [sales2] on it is refused with the message of a
    wrong status, not with [AlreadyAssigned].  And when [sales1] and
    [sales2] claim the unassigned [offer2] at once, both handlers passing
    their checks before either write lands, both are told the appointment
    is theirs, and the second write replaces the first. *)
Lemma claim_refusal_kind_and_race :
  (let c := salesperson "sales2" (qr (salespersonQrData "doctor1" "offer1")) in
   let s' := run (handleTakeOrderAppointment sample_parse) (mkSys c sample_db) in
   Appointment.salespersonId <$> patientOffers sample_db !! "offer1"
     = Some (Some "sales1") ∧
   message (client s') = Some AppointmentNotAccepted ∧
   ¬ ∃ m, message (client s') = Some m ∧ error_kind m = Some AlreadyAssigned)
  ∧
  (let q := qr (salespersonQrData "doctor1" "offer2") in
   let '(k1, k2, d') :=
     racingClaims sample_parse (salesperson "sales1" q) (salesperson "sales2" q)
       sample_db in
   Appointment.salespersonId <$> patientOffers sample_db !! "offer2" = Some None ∧
   message k1 = Some (AssignedToYou appointment) ∧
   message k2 = Some (AssignedToYou appointment) ∧
   Appointment.salespersonId <$> patientOffers d' !! "offer2"
     = Some (Some "sales2")).
Proof.
  split.
  - repeat split; try compute_it.
    intros (m & Hm & Hk). vm_compute in Hm. injection Hm as <-. discriminate Hk.
  - vm_compute. by repeat split.
Qed.

Lemma claim_on_assigned_record_rejected_witness :
  (let s1 := run (handleTakeOrderAppointment sample_parse)
                 (mkSys (salesperson "sales2"
                           (qr (salespersonQrData "doctor1" "offer1")))
                        sample_db) in
   db s1 = sample_db ∧
   ∃ m, message (client s1) = Some m
        ∧ messageType (client s1) = Some MessageType.error
        ∧ error_kind m = Some InvalidState)
  ∧
  (let s1 := run (handleTakeOrderAppointment sample_parse)
                 (mkSys (salesperson "sales1"
                           (qr (salespersonQrData "doctor1" "offer2")))
                        sample_db) in
   let s2 := run (handleTakeOrderAppointment sample_parse)
                 (mkSys (salesperson "sales2"
                           (qr (salespersonQrData "doctor1" "offer2")))
                        (db s1)) in
   db s2 = db s1 ∧
   ∃ m, message (client s2) = Some m
        ∧ messageType (client s2) = Some MessageType.error
        ∧ error_kind m = Some InvalidState).
Proof.
  split.
  - refine (proj1 (claim_on_assigned_record_rejected sample_parse
             (salesperson "sales2" (qr (salespersonQrData "doctor1" "offer1")))
             (salesperson "sales2" (qr (salespersonQrData "doctor1" "offer1")))
             sample_db appointment (PatientOfferRef "offer1")
             (AppointmentData (offer assigned_to_salesperson (Some "sales1")))
             _ _) _).
    + resolved "offer1".
    + compute_it.
    + compute_it.
  - refine (proj2 (claim_on_assigned_record_rejected sample_parse
             (salesperson "sales1" (qr (salespersonQrData "doctor1" "offer2")))
             (salesperson "sales2" (qr (salespersonQrData "doctor1" "offer2")))
             sample_db appointment (PatientOfferRef "offer2")
             (AppointmentData (offer accepted None))
             _ _) _ appointment _).
    + resolved "offer2".
    + compute_it.
    + compute_it.
    + resolved "offer2".
Defined.

Lemma donation_credits_institution_witness :
  let s' := run handleDonateCoins (mkSys (customer1 "" "20") sample_db) in
  message (client s') = Some (Donated 20 (Some "Clinic")) ∧
  Profile.balance <$> profiles (db s') !! "inst1" = Some 20 ∧
  transactions (db s')
    = <[ "inst1" :=
          [Transaction.mk donation 20 "customer1" "inst1" None None
             ServerTimestamp "Donation from customer customer1"] ]> ∅ ∧
  (∀ u, u ≠ "inst1" → profiles (db s') !! u = profiles sample_db !! u) ∧
  (∀ pc, profiles sample_db !! "customer1" = Some pc →
     ∃ pc', profiles (db s') !! "customer1" = Some pc'
            ∧ Profile.balance pc ≤ Profile.balance pc').
Proof.
  apply (donation_credits_institution (customer1 "" "20") sample_db "inst1"
           (Profile.mk "institution" "Clinic" (Some 0) (Some true)));
    compute_it.
Defined.

Lemma invalid_donation_rejected_witness :
  let s' := run handleDonateCoins (mkSys (customer1 "" "-5") sample_db) in
  db s' = sample_db ∧
  ∃ m, message (client s') = Some m
       ∧ messageType (client s') = Some MessageType.error
       ∧ error_kind m = Some ValidationError.
Proof.
  apply (invalid_donation_rejected (customer1 "" "-5") sample_db).
  right. exists (-5). split; [reflexivity | lia].
Defined.

(** ** The further properties on the sample data *)

Lemma sample_reaches :
  reaches sample_parse sample_stringify sample_db later_db.
Proof.
  eapply rtc_l; [apply (step_accept _ _ (doctor "doctor1") _ "offer4")|].
  eapply rtc_l; [apply (step_donate _ _ (customer1 "" "20"))|].
  eapply rtc_l;
    [apply (step_confirm _ _ (customer1 (qr checkupToken) ""))|].
  apply rtc_once.
  apply (step_buy _ _ (customer1 "" "") _ "product1" "order2"). compute_it.
Qed.

Lemma ledger_is_append_only_witness :
  ledger "inst1" sample_db `prefix_of` ledger "inst1" later_db
  ∧ ledger "inst1" later_db
    = [donationTransaction (customer1 "" "20") "inst1" 20].
Proof.
  split; [|compute_it].
  apply (ledger_is_append_only sample_parse sample_stringify sample_db
           later_db "inst1" sample_reaches).
Defined.

Lemma balances_never_decrease_witness :
  balanceOf "inst1" sample_db ≤ balanceOf "inst1" later_db
  ∧ (is_Some (profiles sample_db !! "inst1")
     → is_Some (profiles later_db !! "inst1")).
Proof.
  apply (balances_never_decrease sample_parse sample_stringify sample_db
           later_db "inst1" sample_reaches).
Defined.

Lemma sample_balances_not_negative :
  map_Forall (λ _ p, 0 ≤ Profile.balance p) (profiles sample_db).
Proof.
  apply map_Forall_insert_2; [cbn; lia|].
  apply map_Forall_insert_2; [cbn; lia|]. apply map_Forall_empty.
Qed.

Lemma balances_reconcile_unless_runs_overlap_witness :
  (balanceOf "inst1" later_db - balanceOf "inst1" sample_db
   = ledgerTotal "inst1" later_db - ledgerTotal "inst1" sample_db
   ∧ balanceOf "inst1" later_db = 20)
  ∧ (let c1 := customer1 "" "50" in
     let c2 := customer2 "" "5" in
     let '(k1, k2, d') := racingDonations c1 c2 sample_db in
     message k1 = Some (Donated 50 (Some "Clinic"))
     ∧ message k2 = Some (Donated 5 (Some "Clinic"))
     ∧ ledger "inst1" d'
       = [donationTransaction c1 "inst1" 50; donationTransaction c2 "inst1" 5]
     ∧ ledgerTotal "inst1" d' = 55
     ∧ balanceOf "inst1" d' = 5).
Proof.
  split.
  - split; [|compute_it].
    apply (proj1 (balances_reconcile_unless_runs_overlap sample_parse
                    sample_stringify)
             sample_db later_db "inst1" sample_balances_not_negative);
      [compute_it | apply sample_reaches].
  - apply (proj2 (balances_reconcile_unless_runs_overlap sample_parse
                    sample_stringify)
             (customer1 "" "50") (customer2 "" "5") sample_db "inst1"
             (Profile.mk "institution" "Clinic" (Some 0) (Some true)) 50 5);
      compute_it.
Defined.


Lemma order_not_in_delivery_is_frozen_witness :
  let d := db (exec (handleBuyNow "product1" "order2")
                    (mkSys (customer1 "" "") sample_db)) in
  let d' := db (run (handleConfirmTransferAndPayment sample_parse)
                    (mkSys (customer1 (qr deliveryToken) "") d)) in
  Order.status <$> userOrders d' !! ("customer1", "order1") = Some in_delivery
  ∧ userOrders d' !! ("customer1", "order2")
    = Some (newOrder "customer1" "product1" product1 pending_salesperson_pickup).
Proof.
  split; [compute_it|].
  apply (order_not_in_delivery_is_frozen sample_parse sample_stringify
           (db (exec (handleBuyNow "product1" "order2")
                     (mkSys (customer1 "" "") sample_db))));
    [compute_it | discriminate |].
  apply rtc_once, (step_confirm _ _ (customer1 (qr deliveryToken) "")).
Defined.

Lemma clinic_undelivered : undelivered clinic_db.
Proof. intros k o H. cbn in H. by rewrite lookup_empty in H. Qed.

Lemma deliveries_never_start_witness :
  let d := db (exec (handleBuyNow "product1" "order1")
                    (mkSys (customer1 "" "") clinic_db)) in
  let s' := run (handleConfirmTransferAndPayment sample_parse)
                (mkSys (customer1 (qr deliveryToken) "") d) in
  undelivered d
  ∧ salespersonOrdersSnapshot "sales1" d = []
  ∧ userOrders (db s') = userOrders d
  ∧ message (client s') ≠ Some (ConfirmedAndPaid order).
Proof.
  apply (deliveries_never_start sample_parse sample_stringify clinic_db
           _ (customer1 (qr deliveryToken) "") "sales1" clinic_undelivered).
  apply rtc_once, (step_buy _ _ (customer1 "" "") _ "product1" "order1").
  compute_it.
Defined.

Lemma offer4_settled : settled "offer4" sample_db.
Proof.
  exists (offer completed (Some "sales1")). repeat split; compute_it.
Qed.

Lemma settled_appointment_is_never_paid_again_witness :
  Appointment.status <$> patientOffers later_db !! "offer4" = Some accepted
  ∧ settled "offer4" later_db
  ∧ checkupPayments "offer4" "sales1" later_db
    = checkupPayments "offer4" "sales1" sample_db.
Proof.
  split; [compute_it|].
  apply (settled_appointment_is_never_paid_again sample_parse sample_stringify
           "offer4" sample_db later_db "sales1" offer4_settled sample_reaches).
Defined.

Lemma signed_out_client_writes_nothing_witness :
  run (handleConfirmTransferAndPayment sample_parse) (mkSys signed_out sample_db)
    = rejected EnterQrContent signed_out sample_db
  ∧ run handleDonateCoins (mkSys signed_out sample_db)
    = rejected SelectInstitutionAndAmount signed_out sample_db
  ∧ run (handleAcceptOffer sample_stringify "offer3") (mkSys signed_out sample_db)
    = mkSys signed_out sample_db.
Proof.
  destruct (signed_out_client_writes_nothing sample_parse sample_stringify
              signed_out sample_db "offer3" "product1" "doctor1" "Dr. One"
              "offer5" (mkCheckupForm "cough" "doctor1") "product1" None
              "customer")
    as (H1 & _ & H3 & H4 & _); [by right|].
  split; [exact H1|]. split; [exact H3 | exact H4].
Defined.

Lemma unreadable_qr_content_rejected_witness :
  let c := customer1 "order1" "" in
  run (handleConfirmTransferAndPayment sample_parse) (mkSys c sample_db)
    = rejected (FailedToConfirm SyntaxError) c sample_db
  ∧ run (handleTakeOrderAppointment sample_parse) (mkSys c sample_db)
    = rejected (FailedToTake SyntaxError) c sample_db
  ∧ exn_kind SyntaxError = Some MalformedToken.
Proof.
  apply (unreadable_qr_content_rejected sample_parse (customer1 "order1" "")
           sample_db); first [by left | compute_it].
Defined.

Lemma token_without_record_id_rejected_witness :
  let c := customer1 (qr (JObj [("salespersonId", JStr "sales1")])) "" in
  run (handleConfirmTransferAndPayment journey_parse) (mkSys c sample_db)
    = rejected InvalidQrContent c sample_db
  ∧ run (handleTakeOrderAppointment journey_parse) (mkSys c sample_db)
    = rejected InvalidQrContent c sample_db.
Proof.
  apply (token_without_record_id_rejected journey_parse
           (customer1 (qr (JObj [("salespersonId", JStr "sales1")])) "")
           sample_db JUndefined JUndefined (JStr "sales1"));
    first [presented | compute_it].
Defined.

Lemma confirmation_refusals_witness :
  let c := mkClient true "customer2" [product1] [] (qr checkupToken) "" "" ""
             false None None in
  run (handleConfirmTransferAndPayment sample_parse) (mkSys c sample_db)
    = rejected AppointmentNotForAccount c sample_db.
Proof.
  apply (confirmation_refusals sample_parse
           (mkClient true "customer2" [product1] [] (qr checkupToken) "" "" ""
              false None None)
           sample_db appointment (JStr "sales1") (PatientOfferRef "offer1")
           (AppointmentData (offer assigned_to_salesperson (Some "sales1"))));
    [|compute_it..].
  exists JUndefined, (JStr "offer1").
  split; [presented | split; [reflexivity | by exists "offer1"]].
Defined.

Lemma confirmation_of_missing_record_witness :
  let c := mkClient true "customer2" [product1] [] (qr deliveryToken) "" "" ""
             false None None in
  is_Some (userOrders sample_db !! ("customer1", "order1"))
  ∧ run (handleConfirmTransferAndPayment sample_parse) (mkSys c sample_db)
    = rejected RecordNotFound c sample_db.
Proof.
  split; [by eexists; compute_it|].
  apply (confirmation_of_missing_record sample_parse
           (mkClient true "customer2" [product1] [] (qr deliveryToken) "" "" ""
              false None None)
           sample_db order (JStr "sales1") (UserOrderRef "customer2" "order1"));
    [|compute_it..].
  exists (JStr "order1"), JUndefined.
  split; [presented | by exists "order1"].
Defined.

Lemma donation_ignores_donor_balance_witness :
  let c := customer1 "" "7 coins" in
  let s' := run handleDonateCoins (mkSys c later_db) in
  profiles later_db !! "customer1" = None
  ∧ balanceOf "inst1" (db s') = 27
  ∧ ledger "inst1" (db s')
    = [donationTransaction (customer1 "" "20") "inst1" 20;
       donationTransaction c "inst1" 7].
Proof.
  split; [compute_it|].
  destruct (donation_ignores_donor_balance (customer1 "" "7 coins") later_db
              "inst1" 7 (Profile.mk "institution" "Clinic" (Some 20) (Some true)))
    as (H1 & H2 & _); [compute_it..|].
  split; [exact H1 | exact H2].
Defined.

Lemma donation_to_unknown_institution_fails_witness :
  let c := setSelectedInstitutionForDonation "inst9" (customer1 "" "20") in
  run handleDonateCoins (mkSys c sample_db)
    = rejected (FailedToDonate (FirestoreError "not-found")) c sample_db.
Proof.
  apply (donation_to_unknown_institution_fails
           (setSelectedInstitutionForDonation "inst9" (customer1 "" "20"))
           sample_db 20); compute_it.
Defined.

Lemma claimed_appointment_is_listed_witness :
  let c := salesperson "sales2" (qr (salespersonQrData "doctor1" "offer2")) in
  let s' := run (handleTakeOrderAppointment sample_parse) (mkSys c sample_db) in
  message (client s') = Some (AssignedToYou appointment)
  ∧ OfferItem "offer2" (assignAppointment "sales2" (offer accepted None))
      ∈ allAssignedItems "sales2"
          (salespersonOrdersSnapshot "sales2" (db s'))
          (salespersonOffersSnapshot "sales2" (db s')).
Proof.
  destruct (claimed_appointment_is_listed sample_parse
              (salesperson "sales2" (qr (salespersonQrData "doctor1" "offer2")))
              sample_db JUndefined "offer2" JUndefined (offer accepted None))
    as [H1 H2]; [presented | compute_it..|].
  split; [by rewrite H1 | exact H2].
Defined.

Lemma accept_of_missing_offer_fails_witness :
  run (handleAcceptOffer sample_stringify "offer9")
      (mkSys (doctor "doctor1") sample_db)
    = rejected (FailedToAccept (FirestoreError "not-found"))
        (doctor "doctor1") sample_db.
Proof.
  apply (accept_of_missing_offer_fails sample_stringify (doctor "doctor1")
           sample_db "offer9"); compute_it.
Defined.

Lemma offer3_pending :
  ("offer3", offer pending None)
    ∈ pendingOffers "doctor1" (doctorOffersSnapshot "doctor1" sample_db).
Proof.
  apply list_elem_of_filter. split; [done|].
  apply list_elem_of_filter. split; [by split; [|left]|].
  apply elem_of_map_to_list. compute_it.
Qed.

Lemma accept_then_show_token_witness :
  let c := doctor "doctor1" in
  let s' := run (handleAcceptOffer sample_stringify "offer3")
                (mkSys c sample_db) in
  let s'' := run (handleGenerateSalespersonQr sample_stringify "offer3") s' in
  message (client s') = Some OfferAccepted
  ∧ showQrModal (client s') = false
  ∧ ("offer3", acceptAppointment (offer pending None))
      ∈ acceptedAppointments "doctor1" (doctorOffersSnapshot "doctor1" (db s'))
  ∧ showQrModal (client s'') = true
  ∧ currentQrContent (client s'') = qr (salespersonQrData "doctor1" "offer3").
Proof.
  destruct (accept_then_show_token sample_stringify (doctor "doctor1")
              sample_db "offer3" (offer pending None))
    as (_ & _ & H1 & H2 & _ & H3 & _ & _ & H4 & H5);
    [compute_it.. | exact offer3_pending |].
  split; [exact H1|]. split; [exact H2|]. split; [exact H3|].
  split; [exact H4 | exact H5].
Defined.

Lemma checkup_request_reaches_doctor_witness :
  let form := mkCheckupForm "cough" "doctor1" in
  let c := customer1 "" "" in
  let r := handleRequestCheckup "doctor1" "Dr. One" "offer5" form
             (mkSys c sample_db) in
  r.2 = Val (Some (CheckupRequested "Dr. One"), mkCheckupForm "" "")
  ∧ db r.1 = set_patientOffers
               (<["offer5" := newOffer "customer1" "doctor1" "Dr. One" "cough"]>
                  (patientOffers sample_db)) sample_db
  ∧ ("offer5", newOffer "customer1" "doctor1" "Dr. One" "cough")
      ∈ pendingOffers "doctor1" (doctorOffersSnapshot "doctor1" (db r.1)).
Proof.
  apply (checkup_request_reaches_doctor (customer1 "" "") sample_db "doctor1"
           "Dr. One" "offer5" (mkCheckupForm "cough" "doctor1")); compute_it.
Defined.

Lemma bought_order_is_stuck_witness :
  let r := handleBuyNow "product1" "order2" (mkSys (customer1 "" "") confirmed_db) in
  r.2 = Val (Some (OrderPlaced "Thermometer"))
  ∧ userOrders
      (db (run (handleTakeOrderAppointment sample_parse)
               (mkSys (salesperson "sales1" (qr deliveryToken)) later_db)))
    !! ("customer1", "order2")
    = Some (newOrder "customer1" "product1" product1 pending_salesperson_pickup).
Proof.
  apply (bought_order_is_stuck sample_parse sample_stringify (customer1 "" "")
           confirmed_db "product1" "order2" product1); [compute_it..|].
  apply rtc_once, (step_take _ _ (salesperson "sales1" (qr deliveryToken))).
Defined.

Lemma doctor_purchase_is_final_witness :
  let d := db (exec (handlePurchaseProduct "product1" "order3")
                    (mkSys (doctor "doctor1") sample_db)) in
  let d' := db (run (handleTakeOrderAppointment sample_parse)
                    (mkSys (salesperson "sales1" (qr deliveryToken)) d)) in
  (handlePurchaseProduct "product1" "order3" (mkSys (doctor "doctor1") sample_db)).2
    = Val (Some (ProductPurchased "Thermometer"), "")
  ∧ userOrders d' !! ("doctor1", "order3")
    = Some (newOrder "doctor1" "product1" product1 purchased_by_doctor).
Proof.
  apply (doctor_purchase_is_final sample_parse sample_stringify
           (doctor "doctor1") sample_db "product1" "order3" product1);
    [compute_it..|].
  apply rtc_once, (step_take _ _ (salesperson "sales1" (qr deliveryToken))).
Defined.

Lemma order_item_token_names_an_appointment_witness :
  let c := customer1 (qr orderItemToken) "" in
  let s' := run (handleConfirmTransferAndPayment journey_parse)
                (mkSys c sample_db) in
  orderItemToken = JObj [("patientOfferId", JStr "order1");
                         ("salespersonId", JStr "sales1")]
  ∧ userOrders (db s') = userOrders sample_db
  ∧ message (client s') ≠ Some (ConfirmedAndPaid order).
Proof.
  apply (order_item_token_names_an_appointment journey_parse sample_stringify
           (customer1 (qr orderItemToken) "") sample_db "sales1" "order1"
           order1); first [transported | compute_it].
Defined.

Lemma checkup_journey_stops_at_confirmation_witness :
  let cp := customer1 "" "" in
  let cd := doctor "doctor1" in
  let cs := salesperson "sales1" "" in
  let form := mkCheckupForm "cough" "doctor1" in
  let offer := newOffer "customer1" "doctor1" "Dr. One" "cough" in
  let assigned := assignAppointment "sales1" (acceptAppointment offer) in
  let s1 := exec (handleRequestCheckup "doctor1" "Dr. One" "offer5" form)
                 (mkSys cp sample_db) in
  let s2 := run (handleAcceptOffer sample_stringify "offer5")
                (mkSys cd (db s1)) in
  let s2' := run (handleGenerateSalespersonQr sample_stringify "offer5") s2 in
  let s3 := run (handleTakeOrderAppointment journey_parse)
                (mkSys (setQrCodeInput (currentQrContent (client s2')) cs)
                       (db s2')) in
  let s4 := run (handleGenerateCustomerQr sample_stringify
                   (OfferItem "offer5" assigned)) s3 in
  let s5 := run (handleConfirmTransferAndPayment journey_parse)
                (mkSys (setQrCodeInput (currentQrContent (client s4)) cp)
                       (db s4)) in
  ("offer5", offer)
    ∈ pendingOffers "doctor1" (doctorOffersSnapshot "doctor1" (db s1))
  ∧ ("offer5", acceptAppointment offer)
    ∈ acceptedAppointments "doctor1" (doctorOffersSnapshot "doctor1" (db s2))
  ∧ OfferItem "offer5" assigned
    ∈ allAssignedItems "sales1"
        (salespersonOrdersSnapshot "sales1" (db s3))
        (salespersonOffersSnapshot "sales1" (db s3))
  ∧ message (client s5)
    = Some (FailedToConfirm (FirestoreError "invalid-argument"))
  ∧ patientOffers (db s5) !! "offer5" = Some assigned
  ∧ profiles (db s5) = profiles sample_db
  ∧ transactions (db s5) = transactions sample_db.
Proof.
  apply (checkup_journey_stops_at_confirmation journey_parse sample_stringify
           (customer1 "" "") (doctor "doctor1") (salesperson "sales1" "")
           sample_db "Dr. One" "offer5" (mkCheckupForm "cough" "doctor1"));
    first [transported | compute_it].
Defined.


Lemma institution_onboarding_witness :
  let c := mkClient true "customer1" [product1]
             [Institution.mk "inst2" "Hospice"] "" "15" "inst2" "" false
             None None in
  let b1 := (handleSubmitInstitutionRequest true "Hospice" "inst2"
               sample_backoffice).1 in
  let b2 := (handleApproveInstitution true "inst2" "Hospice" b1).1 in
  let s' := run handleDonateCoins (mkSys c (store b2)) in
  ("inst2", newRequest "Hospice") ∈ institutionRequestsSnapshot b1
  ∧ Institution.mk "inst2" "Hospice" ∈ approvedInstitutionsSnapshot b2
  ∧ profiles (store b2) !! "inst2"
    = Some (Profile.mk "institution" "Hospice" (Some 0) (Some true))
  ∧ message (client s') = Some (Donated 15 (Some "Hospice"))
  ∧ balanceOf "inst2" (db s') = 15
  ∧ ledger "inst2" (db s')
    = (ledger "inst2" (store sample_backoffice)
       ++ [donationTransaction c "inst2" 15])%list.
Proof.
  apply (institution_onboarding sample_backoffice "Hospice" "inst2"
           (mkClient true "customer1" [product1]
              [Institution.mk "inst2" "Hospice"] "" "15" "inst2" "" false
              None None) 15); compute_it.
Defined.

Lemma approval_resets_balance_witness :
  let b' := (handleApproveSalesperson true (Some "manager1") "inst1" "Clinic"
               sample_backoffice).1 in
  balanceOf "inst1" (store sample_backoffice) = 20
  ∧ balanceOf "inst1" (store b') = 0
  ∧ ledgerTotal "inst1" (store b') = 20.
Proof.
  split; [compute_it|].
  destruct (approval_resets_balance sample_backoffice "manager1" "inst1"
              "Clinic" (newRequest "Clinic")) as (_ & _ & H1 & H2 & _);
    [compute_it..|].
  split; [exact H1|]. unfold ledgerTotal. rewrite H2. compute_it.
Defined.
